(** * Pricing-prediction pipeline: a shallow embedding of
    [src/data_pipeline.py] and [src/ai_model.py], and the properties of the
    specification checked against it.

    Conventions of the embedding.
    - A Python [int] is a [Z]; a binary64 float is idealised as an exact
      rational ([Qc], so that numeric equality is Leibniz equality) extended
      with the two infinities; NaN, [None] and [NaT] are the absence of a
      value.  Rounding error and the sign of zero are not modelled.
    - A pandas [DataFrame] is its ordered list of typed columns together with
      its rows, each row a finite map from column names to values; a missing
      cell is an absent key.
    - [try]/[except] is a sum type; [logger] calls are an output list of
      events; [datetime.now()] is an explicit argument [now].
    - numpy's generator, numpy's square root and scikit-learn's random forest
      are interfaces (type classes), instantiated only for examples. *)

From Stdlib Require Import ZArith QArith Qcanon Qround Lqa.
From stdpp Require Import gmap strings list numbers pretty sorting.

Set Warnings "-register-all,-abstract-large-number,-clear-no-such-hyp".

Open Scope Z_scope.

(** ** Python exceptions and logging *)

Inductive exn :=
| ValueError (msg : string)
| TypeError (msg : string)
| KeyError (msg : string)
| AttributeError (msg : string)
| OverflowError (msg : string)
| FileNotFoundError (msg : string)
| PermissionError (msg : string)
| UnpicklingError (msg : string)
| NotFittedError (msg : string)
| IndexError (msg : string).

Definition exn_str (e : exn) : string :=
  match e with
  | ValueError m | TypeError m | KeyError m | AttributeError m
  | OverflowError m | FileNotFoundError m | PermissionError m
  | UnpicklingError m | NotFittedError m | IndexError m => m
  end.

(** The outcome of a block that may raise. *)
Inductive result (A : Type) :=
| Ok (a : A)
| Raise (e : exn).
Arguments Ok {A} a.
Arguments Raise {A} e.

Definition rbind {A B} (m : result A) (k : A -> result B) : result B :=
  match m with
  | Ok a => k a
  | Raise e => Raise e
  end.

Notation "x <-! m ; k" := (rbind m (fun x => k))
  (at level 100, m at next level, right associativity).

Inductive level := DEBUG | INFO | WARNING | ERROR.

#[global] Instance level_eq_dec : EqDecision level.
Proof. solve_decision. Defined.

Record event := LogRecord { ev_level : level; ev_msg : string }.

Definition log := list event.

(** ** binary64 values, idealised *)

Module Float64.

Inductive float :=
| NInf
| Fin (q : Qc)
| PInf.

#[global] Instance float_eq_dec : EqDecision float.
Proof. solve_decision. Defined.

Definition of_Z (n : Z) : float := Fin (Qc_of_Z n).

Definition dec (n : Z) (d : positive) : Qc := Q2Qc (n # d).

Definition ltb (a b : float) : bool :=
  match a, b with
  | NInf, NInf => false
  | NInf, _ => true
  | Fin _, NInf => false
  | Fin x, Fin y => bool_decide (x < y)%Qc
  | Fin _, PInf => true
  | PInf, _ => false
  end.

Definition le (a b : float) : Prop := ltb b a = false.

#[global] Instance le_dec : RelDecision le.
Proof. intros a b. unfold le. apply _. Defined.

Definition neg (a : float) : float :=
  match a with
  | NInf => PInf
  | Fin q => Fin (- q)%Qc
  | PInf => NInf
  end.

(** Arithmetic; [None] is NaN. *)
Definition add (a b : float) : option float :=
  match a, b with
  | Fin x, Fin y => Some (Fin (x + y)%Qc)
  | PInf, NInf | NInf, PInf => None
  | PInf, _ | _, PInf => Some PInf
  | NInf, _ | _, NInf => Some NInf
  end.

Definition sub (a b : float) : option float := add a (neg b).

Definition inf_of_sign (positive : bool) : float :=
  if positive then PInf else NInf.

Definition mul (a b : float) : option float :=
  match a, b with
  | Fin x, Fin y => Some (Fin (x * y)%Qc)
  | Fin x, PInf | PInf, Fin x =>
      if decide (x = 0%Qc) then None
      else Some (inf_of_sign (bool_decide (0 < x)%Qc))
  | Fin x, NInf | NInf, Fin x =>
      if decide (x = 0%Qc) then None
      else Some (inf_of_sign (bool_decide (x < 0)%Qc))
  | PInf, PInf | NInf, NInf => Some PInf
  | PInf, NInf | NInf, PInf => Some NInf
  end.

Definition div (a b : float) : option float :=
  match a, b with
  | Fin x, Fin y =>
      if decide (y = 0%Qc) then
        if decide (x = 0%Qc) then None
        else Some (inf_of_sign (bool_decide (0 < x)%Qc))
      else Some (Fin (x / y)%Qc)
  | Fin _, _ => Some (Fin 0%Qc)
  | PInf, Fin y => Some (inf_of_sign (negb (bool_decide (y < 0)%Qc)))
  | NInf, Fin y => Some (inf_of_sign (bool_decide (y < 0)%Qc))
  | _, _ => None
  end.

(** Python's [round(x, 2)]: to the nearest hundredth, ties to even. *)
Definition round_half_even (q : Qc) : Z :=
  let f := Qfloor q in
  let r := (q - Qc_of_Z f)%Qc in
  if decide (r < dec 1 2)%Qc then f
  else if decide (dec 1 2 < r)%Qc then f + 1
  else if Z.even f then f else f + 1.

Definition round2 (q : Qc) : Qc :=
  Q2Qc (round_half_even (q * Qc_of_Z 100)%Qc # 100).

(** [Series.median()] and [Series.quantile(q)] over the values present. *)
Definition sorted (l : list float) : list float := merge_sort le l.

Definition median (l : list float) : option float :=
  let s := sorted l in
  let n := length s in
  if decide (n = 0%nat) then None
  else if Nat.even n then
    a ← s !! (n / 2 - 1)%nat;
    b ← s !! (n / 2)%nat;
    t ← add a b;
    div t (of_Z 2)
  else s !! (n / 2)%nat.

Definition quantile (q : Qc) (l : list float) : option float :=
  let s := sorted l in
  let n := length s in
  if decide (n = 0%nat) then None
  else
    let pos := (Qc_of_Z (Z.of_nat n - 1) * q)%Qc in
    let lo := Qfloor pos in
    let frac := (pos - Qc_of_Z lo)%Qc in
    a ← s !! Z.to_nat lo;
    if decide (frac = 0%Qc) then Some a
    else
      b ← s !! Z.to_nat (lo + 1);
      d ← sub b a;
      e ← mul d (Fin frac);
      add a e.

End Float64.

(** ** Python's [datetime], as the pure-Python implementation computes *)

Module Datetime.

(** A naive datetime: proleptic Gregorian ordinal of the day (1 is
    0001-01-01), second of the day, microsecond. *)
Record datetime := mk_datetime {
  ordinal : Z;
  second_of_day : Z;
  microsecond : Z
}.

#[global] Instance datetime_eq_dec : EqDecision datetime.
Proof. solve_decision. Defined.

Definition MINORDINAL : Z := 1.
Definition MAXORDINAL : Z := 3652059.
Definition MAX_DELTA_DAYS : Z := 999999999.

Definition valid (t : datetime) : Prop :=
  MINORDINAL <= ordinal t <= MAXORDINAL /\
  0 <= second_of_day t < 86400 /\
  0 <= microsecond t < 1000000.

(** [timedelta(days=d)] *)
Definition timedelta_days (d : Z) : result Z :=
  if decide (Z.abs d <= MAX_DELTA_DAYS) then Ok d
  else Raise (OverflowError "days out of range").

(** [t + delta] for a whole number of days *)
Definition add_days (t : datetime) (d : Z) : result datetime :=
  let o := ordinal t + d in
  if decide (MINORDINAL <= o <= MAXORDINAL) then
    Ok (mk_datetime o (second_of_day t) (microsecond t))
  else Raise (OverflowError "date value out of range").

Definition hour (t : datetime) : Z := second_of_day t / 3600.

Definition weekday (t : datetime) : Z := (ordinal t + 6) mod 7.

Definition days_before_month (m : Z) : Z :=
  nth (Z.to_nat m) [0; 0; 31; 59; 90; 120; 151; 181; 212; 243; 273; 304; 334] 0.

(** [_ord2ymd]: the month of an ordinal. *)
Definition month_of_ordinal (o : Z) : Z :=
  let n := o - 1 in
  let n400 := n / 146097 in
  let n := n mod 146097 in
  let n100 := n / 36524 in
  let n := n mod 36524 in
  let n4 := n / 1461 in
  let n := n mod 1461 in
  let n1 := n / 365 in
  let n := n mod 365 in
  if decide (n1 = 4 \/ n100 = 4) then 12
  else
    let leapyear := bool_decide (n1 = 3 /\ (n4 <> 24 \/ n100 = 3)) in
    let month := Z.shiftr (n + 50) 5 in
    let preceding :=
      days_before_month month +
      (if bool_decide (2 < month) && leapyear then 1 else 0) in
    if decide (n < preceding) then month - 1 else month.

Definition month (t : datetime) : Z := month_of_ordinal (ordinal t).

End Datetime.

(** ** The parts of pandas the pipeline calls *)

Module Pandas.
Import Float64 Datetime.

Inductive dtype := Int64 | Float64 | Object | Datetime64 | Category.

#[global] Instance dtype_eq_dec : EqDecision dtype.
Proof. solve_decision. Defined.

Definition is_number (d : dtype) : bool :=
  match d with
  | Int64 | Float64 => true
  | _ => false
  end.

Definition dtype_str (d : dtype) : string :=
  match d with
  | Int64 => "int64"
  | Float64 => "float64"
  | Object => "object"
  | Datetime64 => "datetime64[ns]"
  | Category => "category"
  end.

Inductive value :=
| VNum (x : float)
| VStr (s : string)
| VTime (t : datetime)
| VCat (c : string).

#[global] Instance value_eq_dec : EqDecision value.
Proof. solve_decision. Defined.

(** A record: a flat mapping from field names to values; a missing value
    (NaN, None, NaT) is an absent key. *)
Abbreviation row := (gmap string value).

Record DataFrame := mk_frame {
  columns : list (string * dtype);
  rows : list row
}.

Definition len (df : DataFrame) : nat := length (rows df).

(** [c in df.columns] *)
Definition has_column (c : string) (df : DataFrame) : bool :=
  bool_decide (c ∈ (columns df).*1).

(** [df[c].dtype] *)
Fixpoint column_dtype (c : string) (cols : list (string * dtype))
  : option dtype :=
  match cols with
  | [] => None
  | (c', d) :: cols' => if decide (c' = c) then Some d else column_dtype c cols'
  end.

(** The number stored in a cell, NaN ([None]) when the cell is missing. *)
Definition num_at (c : string) (r : row) : option float :=
  match r !! c with
  | Some (VNum x) => Some x
  | _ => None
  end.

(** The present numbers of a column. *)
Definition present (c : string) (rs : list row) : list float :=
  omap (num_at c) rs.

(** An elementwise numeric operation raises [TypeError] when it meets a value
    that is not a number. *)
Definition is_numeric_cell (c : string) (r : row) : bool :=
  match r !! c with
  | Some (VNum _) | None => true
  | Some _ => false
  end.

Definition require_numbers (c : string) (df : DataFrame) : result unit :=
  if forallb (is_numeric_cell c) (rows df) then Ok ()
  else Raise (TypeError ("unsupported operand type in column " +:+ c)).

(** [df[mask]] for a boolean mask. *)
Fixpoint mask_filter {A} (mask : list bool) (l : list A) : list A :=
  match mask, l with
  | b :: mask', x :: l' =>
      if b then x :: mask_filter mask' l' else mask_filter mask' l'
  | _, _ => []
  end.

(** [DataFrame.duplicated()]: a row is marked when an identical row occurs
    earlier. *)
Fixpoint duplicated_from (seen rs : list row) : list bool :=
  match rs with
  | [] => []
  | r :: rs' => bool_decide (r ∈ seen) :: duplicated_from (r :: seen) rs'
  end.

Definition duplicated (df : DataFrame) : list bool :=
  duplicated_from [] (rows df).

Definition count_true (l : list bool) : nat := length (filter (λ b, b = true) l).

(** [DataFrame.drop_duplicates()] is [df[~df.duplicated()]]. *)
Definition drop_duplicates (df : DataFrame) : DataFrame :=
  mk_frame (columns df) (mask_filter (negb <$> duplicated df) (rows df)).

(** [df.isnull().sum()] *)
Definition isnull_sum (df : DataFrame) : list (string * nat) :=
  (λ cd : string * dtype,
     (cd.1, length (filter (λ r : row, r !! cd.1 = None) (rows df))))
  <$> columns df.

(** [df.select_dtypes(include=[np.number]).columns] *)
Definition select_dtypes_number (df : DataFrame) : list string :=
  (filter (λ cd : string * dtype, is_number cd.2 = true) (columns df)).*1.

(** [df[cols].median()]: one median per column, NaN for a column without a
    number. *)
Definition medians (cols : list string) (df : DataFrame)
  : list (string * option float) :=
  (λ c, (c, median (present c (rows df)))) <$> cols.

Definition fill_cell (r : row) (cm : string * option float) : row :=
  match r !! cm.1, cm.2 with
  | None, Some m => <[cm.1 := VNum m]> r
  | _, _ => r
  end.

(** [df[cols] = df[cols].fillna(meds)] *)
Definition fillna (meds : list (string * option float)) (df : DataFrame)
  : DataFrame :=
  mk_frame (columns df) ((λ r, foldl fill_cell r meds) <$> rows df).

(** [df[df[c] > 0]], the comparison applied row by row (NaN > 0 is false). *)
Definition gt0 (o : option float) : bool :=
  match o with
  | Some x => ltb (Fin 0%Qc) x
  | None => false
  end.

Definition lt0 (o : option float) : bool :=
  match o with
  | Some x => ltb x (Fin 0%Qc)
  | None => false
  end.

Definition rows_where (p : row → bool) (df : DataFrame) : DataFrame :=
  mk_frame (columns df) (filter (λ r, p r = true) (rows df)).

(** [df[c] = series], the series computed row by row; an existing column
    keeps its position and takes the new dtype. *)
Fixpoint set_dtype (c : string) (d : dtype) (cols : list (string * dtype))
  : list (string * dtype) :=
  match cols with
  | [] => [(c, d)]
  | (c', d') :: cols' =>
      if decide (c' = c) then (c, d) :: cols'
      else (c', d') :: set_dtype c d cols'
  end.

Definition set_cell (c : string) (f : row → option value) (r : row) : row :=
  match f r with
  | Some v => <[c := v]> r
  | None => delete c r
  end.

Definition assign (c : string) (d : dtype) (f : row → option value)
  (df : DataFrame) : DataFrame :=
  mk_frame (set_dtype c d (columns df)) (set_cell c f <$> rows df).

(** [pd.cut(x, bins, labels)] with the default [right=True]: the bin index
    is [bins.searchsorted(x, side='left')]; index 0 and index [len(bins)]
    give NaN. *)
Definition searchsorted_left (bins : list float) (x : float) : nat :=
  length (filter (λ b, ltb b x = true) bins).

Definition cut (bins : list float) (labels : list string) (o : option float)
  : option string :=
  x ← o;
  let ids := searchsorted_left bins x in
  if decide (ids = 0%nat ∨ ids = length bins) then None
  else labels !! (ids - 1)%nat.

End Pandas.

(** ** [src/data_pipeline.py] *)

Module DataPipeline.
Import Float64 Datetime Pandas.

Record ValidationReport := mk_report {
  total_records : nat;
  missing_values : list (string * nat);
  duplicate_records : nat;
  data_types : list (string * string);
  validated_at : datetime;
  negative_prices : option nat;
  demand_outliers : option nat
}.

Definition demand_bins : list float :=
  [of_Z 0; of_Z 100; of_Z 300; of_Z 500; PInf].

Definition demand_labels : list string :=
  ["low"; "medium"; "high"; "very_high"].

Definition demand_level (o : option float) : option string :=
  cut demand_bins demand_labels o.

Definition price_ratio (r : row) : option float :=
  a ← num_at "current_price" r;
  b ← num_at "base_price" r;
  div a b.

(** "Remove negative prices" *)
Definition remove_negative_prices (df : DataFrame) : result DataFrame :=
  if has_column "current_price" df then
    _ <-! require_numbers "current_price" df;
    Ok (rows_where (λ r, gt0 (num_at "current_price" r)) df)
  else Ok df.

(** "Add derived features" *)
Definition add_price_ratio (df : DataFrame) : result DataFrame :=
  if has_column "current_price" df && has_column "base_price" df then
    _ <-! require_numbers "current_price" df;
    _ <-! require_numbers "base_price" df;
    Ok (assign "price_ratio" Float64 (λ r, VNum <$> price_ratio r) df)
  else Ok df.

Definition add_demand_level (df : DataFrame) : result DataFrame :=
  if has_column "demand" df then
    _ <-! require_numbers "demand" df;
    Ok (assign "demand_level" Category
          (λ r, VCat <$> demand_level (num_at "demand" r)) df)
  else Ok df.

(** The body of the [try] block of [transform_data]. *)
Definition transform_steps (data : DataFrame) : result DataFrame :=
  let df := data in
  let df := drop_duplicates df in
  let numeric_cols := select_dtypes_number df in
  let df := fillna (medians numeric_cols df) df in
  df <-! remove_negative_prices df;
  df <-! add_price_ratio df;
  df <-! add_demand_level df;
  Ok df.

Definition transform_data (data : DataFrame) : DataFrame * log :=
  match transform_steps data with
  | Ok df =>
      (df, [LogRecord INFO
              ("Transformed data: " +:+ pretty (len df) +:+ " records")])
  | Raise e =>
      (data, [LogRecord ERROR ("Failed to transform data: " +:+ exn_str e)])
  end.

(** [validate_data] has no [try]: what a step raises reaches the caller. *)
Definition count_where (p : row → bool) (df : DataFrame) : nat :=
  length (filter (λ r, p r = true) (rows df)).

Definition is_outlier (lo hi : option float) (o : option float) : bool :=
  match o with
  | Some x =>
      match lo with Some l => ltb x l | None => false end
      || match hi with Some h => ltb h x | None => false end
  | None => false
  end.

Definition demand_outlier_count (df : DataFrame) : nat :=
  let xs := present "demand" (rows df) in
  let q1 := quantile (dec 1 4) xs in
  let q3 := quantile (dec 3 4) xs in
  let iqr := a ← q3; b ← q1; sub a b in
  let w := i ← iqr; mul (Fin (dec 3 2)) i in
  let lo := a ← q1; b ← w; sub a b in
  let hi := a ← q3; b ← w; add a b in
  count_where (λ r, is_outlier lo hi (num_at "demand" r)) df.

Definition validate_data (now : datetime) (data : DataFrame)
  : result ValidationReport * log :=
  let r :=
    negative <-! (if has_column "current_price" data then
                    _ <-! require_numbers "current_price" data;
                    Ok (Some (count_where
                                (λ r, lt0 (num_at "current_price" r)) data))
                  else Ok None);
    outliers <-! (if has_column "demand" data then
                    _ <-! require_numbers "demand" data;
                    Ok (Some (demand_outlier_count data))
                  else Ok None);
    Ok {| total_records := len data;
          missing_values := isnull_sum data;
          duplicate_records := count_true (duplicated data);
          data_types := (λ cd : string * dtype, (cd.1, dtype_str cd.2))
                        <$> columns data;
          validated_at := now;
          negative_prices := negative;
          demand_outliers := outliers |} in
  match r with
  | Ok rep => (Ok rep, [LogRecord INFO "Data validation completed"])
  | Raise e => (Raise e, [])
  end.

(** The notions the specification states its properties with. *)

(** An identical record appeared earlier in the sequence. *)
Definition appeared_earlier (rs : list row) (i : nat) : Prop :=
  ∃ r, rs !! i = Some r ∧ r ∈ take i rs.

#[global] Instance appeared_earlier_dec rs i : Decision (appeared_earlier rs i).
Proof.
  unfold appeared_earlier. destruct (rs !! i) as [r|].
  - destruct (decide (r ∈ take i rs)) as [Hin|Hout].
    + left. by exists r.
    + right. intros (r' & [= <-] & Hin). by apply Hout.
  - right. by intros (r' & [=] & _).
Defined.



(** Every record has a [current_price] that is a number above zero. *)
Definition prices_positive (df : DataFrame) : Prop :=
  Forall (λ r : row, gt0 (num_at "current_price" r) = true) (rows df).

End DataPipeline.

(** ** numpy: the legacy global generator and the square root, as interfaces *)

Module Numpy.

(** [G] is the state of [np.random]; every draw returns the value and the
    next state. *)
Class RandomState (G : Type) := {
  seed : Z → G;
  uniform : Qc → Qc → G → Qc * G;
  randint : Z → Z → G → Z * G;
  normal : Qc → Qc → G → Qc * G;
  permutation : nat → G → list nat * G;
  uniform_range : ∀ lo hi g,
    (lo < hi)%Qc → (lo ≤ (uniform lo hi g).1)%Qc ∧ ((uniform lo hi g).1 < hi)%Qc;
  randint_range : ∀ lo hi g,
    lo < hi → lo <= (randint lo hi g).1 < hi;
  permutation_perm : ∀ n g, (permutation n g).1 ≡ₚ seq 0 n
}.

Class Sqrt := sqrt : Qc → Qc.

(** [n] draws in a row, as the vectorised calls make them. *)
Fixpoint draws {G A} (draw : G → A * G) (n : nat) (g : G) : list A * G :=
  match n with
  | O => ([], g)
  | S n' =>
      let '(x, g) := draw g in
      let '(xs, g) := draws draw n' g in
      (x :: xs, g)
  end.

End Numpy.

(** ** [DataPipeline.generate_sample_data] *)

Module RecordGenerator.
Import Float64 Datetime Pandas Numpy.

(** [for a in l: s = body(s, a)], stopping at the first exception. *)
Fixpoint for_each {A S} (body : S → A → result S) (l : list A) (s : S)
  : result S :=
  match l with
  | [] => Ok s
  | a :: l' => s' <-! body s a; for_each body l' s'
  end.

(** [range(n)] and [range(1, n + 1)] *)
Definition range (n : Z) : list Z := seqZ 0 n.
Definition range1 (n : Z) : list Z := seqZ 1 n.

(** [f'{n:04d}'] *)
Definition format_04d (n : Z) : string :=
  let digits := pretty (Z.abs n) in
  let sign := if decide (n < 0) then "-" else "" in
  let pad := (4 - String.length sign - String.length digits)%nat in
  sign +:+ String.concat "" (replicate pad "0") +:+ digits.

Definition record (product_id : Z) (timestamp : datetime)
  (base_price current_price : Qc) (demand : Z) (competition_price : Qc)
  : row :=
  list_to_map
    [("product_id", VStr ("PROD-" +:+ format_04d product_id));
     ("timestamp", VTime timestamp);
     ("base_price", VNum (Fin (round2 base_price)));
     ("current_price", VNum (Fin (round2 current_price)));
     ("demand", VNum (of_Z demand));
     ("competition_price", VNum (Fin (round2 competition_price)));
     ("time_of_day", VNum (of_Z (hour timestamp)));
     ("day_of_week", VNum (of_Z (weekday timestamp)));
     ("season", VNum (of_Z ((month timestamp - 1) / 3)))].

Definition record_columns : list (string * dtype) :=
  [("product_id", Object); ("timestamp", Datetime64);
   ("base_price", Float64); ("current_price", Float64);
   ("demand", Int64); ("competition_price", Float64);
   ("time_of_day", Int64); ("day_of_week", Int64); ("season", Int64)].

(** [pd.DataFrame(data)] for a list of such records; an empty list gives a
    frame without columns. *)
Definition frame_of_records (data : list row) : DataFrame :=
  match data with
  | [] => mk_frame [] []
  | _ => mk_frame record_columns data
  end.



(** The ranges of the generated fields. *)
Definition price_above_zero (c : string) (r : row) : Prop :=
  ∃ q, num_at c r = Some (Fin q) ∧ (0 < q)%Qc.

Definition integer_between (c : string) (lo hi : Z) (r : row) : Prop :=
  ∃ n, num_at c r = Some (of_Z n) ∧ lo <= n <= hi.

Definition record_in_range (r : row) : Prop :=
  price_above_zero "current_price" r ∧
  price_above_zero "base_price" r ∧
  price_above_zero "competition_price" r ∧
  integer_between "demand" 50 499 r ∧
  integer_between "time_of_day" 0 23 r ∧
  integer_between "day_of_week" 0 6 r ∧
  integer_between "season" 0 3 r.

Section generator.
Context {G : Type} `{RandomState G}.

Definition day_step (product_id : Z) (base_price : Qc) (start_date : datetime)
  (st : G * list row) (day : Z) : result (G * list row) :=
  let '(g, data) := st in
  delta <-! timedelta_days day;
  timestamp <-! add_days start_date delta;
  let '(demand, g) := randint 50 500 g in
  let '(u, g) := uniform (dec 85 100) (dec 115 100) g in
  let competition_price := (base_price * u)%Qc in
  let '(v, g) := uniform (dec 9 10) (dec 11 10) g in
  let current_price := (base_price * v)%Qc in
  Ok (g, data ++ [record product_id timestamp base_price current_price
                    demand competition_price]).

Definition product_step (start_date : datetime) (days : Z)
  (st : G * list row) (product_id : Z) : result (G * list row) :=
  let '(g, data) := st in
  let '(base_price, g) := uniform (Qc_of_Z 10) (Qc_of_Z 200) g in
  for_each (day_step product_id base_price start_date) (range days) (g, data).

Definition generate_records (now : datetime) (n_products days : Z)
  : result (list row) :=
  let g : G := seed 42 in
  delta <-! timedelta_days days;
  start_date <-! add_days now (- delta);
  st <-! for_each (product_step start_date days) (range1 n_products) (g, []);
  Ok st.2.

Definition generate_sample_data (now : datetime) (n_products days : Z)
  : result DataFrame * log :=
  match generate_records now n_products days with
  | Ok data =>
      let df := frame_of_records data in
      (Ok df,
       [LogRecord INFO ("Generated " +:+ pretty (len df) +:+ " sample records")])
  | Raise e => (Raise e, [])
  end.

End generator.

End RecordGenerator.

(** ** scikit-learn: splitting and scaling as it computes them, the random
    forest as an interface *)

Module Sklearn.
Import Numpy.

Abbreviation vector := (list Qc).
Abbreviation matrix := (list (list Qc)).

Definition sum (v : vector) : Qc := foldr Qcplus 0%Qc v.

Definition mean (v : vector) : Qc :=
  (sum v / Qc_of_Z (Z.of_nat (length v)))%Qc.

Definition n_features (X : matrix) : nat := length (default [] (head X)).

Definition column (j : nat) (X : matrix) : vector :=
  (λ r : list Qc, default 0%Qc (r !! j)) <$> X.

(** [X[idx]] *)
Definition take_rows {A} (idx : list nat) (l : list A) : list A :=
  omap (λ i, l !! i) idx.

(** The indices [ShuffleSplit] draws for [test_size=0.2, random_state=42]. *)
Definition n_test_of (n : nat) : nat :=
  Z.to_nat (Qceiling ((2 # 10) * inject_Z (Z.of_nat n))%Q).

Section split.
Context {G : Type} `{RandomState G}.

Definition split_indices (n : nat) : list nat * list nat :=
  let n_test := n_test_of n in
  let n_train := (n - n_test)%nat in
  let perm := (permutation n (seed 42)).1 in
  (take n_train (drop n_test perm), take n_test perm).

Definition train_test_split (X : matrix) (y : vector)
  : result (matrix * matrix * vector * vector) :=
  let n := length X in
  if decide (length y ≠ n) then
    Raise (ValueError
             "Found input variables with inconsistent numbers of samples")
  else if decide ((n - n_test_of n)%nat = 0%nat) then
    Raise (ValueError "the resulting train set will be empty")
  else
    let '(ind_train, ind_test) := split_indices n in
    Ok (take_rows ind_train X, take_rows ind_test X,
        take_rows ind_train y, take_rows ind_test y).

End split.

(** [StandardScaler]: per-feature mean, variance and scale. *)
Record ScalingParameters := mk_scaling {
  mean_ : vector;
  var_ : vector;
  scale_ : vector
}.

Definition variance (v : vector) : Qc :=
  let m := mean v in
  mean ((λ x, ((x - m) * (x - m))%Qc) <$> v).

Definition handle_zeros (s : Qc) : Qc :=
  if decide (s = 0%Qc) then 1%Qc else s.

Definition check_array (X : matrix) : result unit :=
  if decide (X = []) then
    Raise (ValueError "Found array with 0 sample(s)")
  else if decide (n_features X = 0%nat) then
    Raise (ValueError "Found array with 0 feature(s)")
  else Ok ().

Definition scaler_fit `{Sqrt} (X : matrix) : result ScalingParameters :=
  _ <-! check_array X;
  let cols := (λ j, column j X) <$> seq 0 (n_features X) in
  Ok {| mean_ := mean <$> cols;
        var_ := variance <$> cols;
        scale_ := (λ c, handle_zeros (sqrt (variance c))) <$> cols |}.

Definition scale_row (p : ScalingParameters) (r : list Qc) : list Qc :=
  zip_with (λ x ms, ((x - ms.1) / ms.2)%Qc) r (zip (mean_ p) (scale_ p)).

Definition scaler_transform (p : ScalingParameters) (X : matrix)
  : result matrix :=
  _ <-! check_array X;
  if forallb (λ r : list Qc, bool_decide (length r = length (mean_ p))) X then
    Ok (scale_row p <$> X)
  else Raise (ValueError "X has a different number of features than the scaler").

(** [RandomForestRegressor(n_estimators=100, max_depth=10, random_state=42,
    n_jobs=-1)]: fitting, predicting, and the importances of a fitted
    forest, one per feature it was fitted on. *)
Class RandomForest (M : Type) := {
  rf_fit : matrix → vector → M;
  rf_predict : M → matrix → result vector;
  feature_importances_ : M → vector;
  importances_length : ∀ X y,
    length (feature_importances_ (rf_fit X y)) = n_features X;
  importances_nonneg : ∀ m,
    Forall (λ w, (0 ≤ w)%Qc) (feature_importances_ m)
}.

Definition squared_errors (y_true y_pred : vector) : vector :=
  zip_with (λ a b, ((a - b) * (a - b))%Qc) y_true y_pred.

Definition mean_squared_error (y_true y_pred : vector) : Qc :=
  mean (squared_errors y_true y_pred).

(** [r2_score]; NaN ([None]) with fewer than two samples. *)
Definition r2_score (y_true y_pred : vector) : option Qc :=
  if decide (length y_true < 2)%nat then None
  else
    let ss_res := sum (squared_errors y_true y_pred) in
    let m := mean y_true in
    let ss_tot := sum ((λ a, ((a - m) * (a - m))%Qc) <$> y_true) in
    if decide (ss_tot = 0%Qc) then
      Some (if decide (ss_res = 0%Qc) then 1%Qc else 0%Qc)
    else Some (1 - ss_res / ss_tot)%Qc.

End Sklearn.

(** ** [src/ai_model.py] *)

Module DynamicPricingModel.
Import Float64 Datetime Numpy Sklearn.

(** The Python objects the model's attributes and the artifact file can
    hold. [PyScaler None] is a [StandardScaler] that was not fitted. *)
Inductive pyobj (M : Type) :=
| PyNone
| PyRegressor (m : M)
| PyScaler (p : option ScalingParameters)
| PyDict (items : list (string * pyobj M))
| PyStr (s : string).
Arguments PyNone {M}.
Arguments PyRegressor {M} m.
Arguments PyScaler {M} p.
Arguments PyDict {M} items.
Arguments PyStr {M} s.

Record model_state (M : Type) := mk_state {
  model_path : string;
  model : pyobj M;
  scaler : pyobj M;
  is_trained : bool
}.
Arguments mk_state {M}.
Arguments model_path {M}.
Arguments model {M}.
Arguments scaler {M}.
Arguments is_trained {M}.

(** What [open(path, 'rb')] followed by [pickle.load] finds. A path that is
    not in the map does not exist. *)
Inductive file (M : Type) :=
| Locked
| Garbage
| Pickled (o : pyobj M).
Arguments Locked {M}.
Arguments Garbage {M}.
Arguments Pickled {M} o.

Record metrics := mk_metrics {
  mse : Qc;
  rmse : Qc;
  r2 : option Qc;
  trained_at : datetime
}.

Inductive train_result :=
| Metrics (m : metrics)
| Error (msg : string).

Definition feature_names : list string :=
  ["base_price"; "demand"; "competition_price";
   "time_of_day"; "day_of_week"; "season"].

Fixpoint dict_get {A} (k : string) (items : list (string * A)) : option A :=
  match items with
  | [] => None
  | (k', v) :: items' => if decide (k' = k) then Some v else dict_get k items'
  end.

(** [l[i]] for an index in range *)
Definition at_ {A} (l : list A) (d : A) (i : nat) : A := default d (l !! i).

Section model.
Context {G M : Type} `{RandomState G} `{Sqrt} `{RandomForest M}.

(** [__init__] *)
Definition init (model_path : string) : model_state M :=
  mk_state model_path PyNone PyNone false.

Definition generate_training_data (n_samples : nat) : matrix * vector :=
  let g : G := seed 42 in
  let '(base_prices, g) :=
    draws (uniform (Qc_of_Z 10) (Qc_of_Z 100)) n_samples g in
  let '(demand, g) := draws (randint 0 1000) n_samples g in
  let '(factors, g) := draws (uniform (dec 8 10) (dec 12 10)) n_samples g in
  let competition_prices := zip_with Qcmult base_prices factors in
  let '(time_of_day, g) := draws (randint 0 24) n_samples g in
  let '(day_of_week, g) := draws (randint 0 7) n_samples g in
  let '(season, g) := draws (randint 0 4) n_samples g in
  let '(noise, g) := draws (normal 0%Qc (Qc_of_Z 2)) n_samples g in
  let features :=
    (λ i, [at_ base_prices 0%Qc i; Qc_of_Z (at_ demand 0 i);
           at_ competition_prices 0%Qc i; Qc_of_Z (at_ time_of_day 0 i);
           Qc_of_Z (at_ day_of_week 0 i); Qc_of_Z (at_ season 0 i)])
    <$> seq 0 n_samples in
  let optimal_price :=
    (λ i,
       let b := at_ base_prices 0%Qc i in
       let d := Qc_of_Z (at_ demand 0 i) in
       let c := at_ competition_prices 0%Qc i in
       let late := Qc_of_Z (if decide (20 < at_ time_of_day 0 i) then 1 else 0) in
       let e := at_ noise 0%Qc i in
       (b * dec 7 10 + d / Qc_of_Z 1000 * b * dec 3 10 + c * dec 2 10
        - late * b * dec 5 100 + e)%Qc)
    <$> seq 0 n_samples in
  (features, optimal_price).

(** [if features is None or targets is None: ... generate_training_data()] *)
Definition training_set (features : option matrix) (targets : option vector)
  : matrix * vector :=
  match features, targets with
  | Some X, Some y => (X, y)
  | _, _ => generate_training_data 10000
  end.

(** The [try] block of [train], with the state each assignment leaves. *)
Definition train_steps (st : model_state M) (now : datetime)
  (features : option matrix) (targets : option vector)
  : model_state M * result metrics :=
  let '(features, targets) := training_set features targets in
  match train_test_split features targets with
  | Raise e => (st, Raise e)
  | Ok (X_train, X_test, y_train, y_test) =>
    let st := mk_state (model_path st) (model st) (PyScaler None)
                (is_trained st) in
    match scaler_fit X_train with
    | Raise e => (st, Raise e)
    | Ok p =>
      let st := mk_state (model_path st) (model st) (PyScaler (Some p))
                  (is_trained st) in
      match X_train_scaled <-! scaler_transform p X_train;
            X_test_scaled <-! scaler_transform p X_test;
            Ok (X_train_scaled, X_test_scaled) with
      | Raise e => (st, Raise e)
      | Ok (X_train_scaled, X_test_scaled) =>
        let m := rf_fit X_train_scaled y_train in
        let st := mk_state (model_path st) (PyRegressor m) (scaler st)
                    (is_trained st) in
        match rf_predict m X_test_scaled with
        | Raise e => (st, Raise e)
        | Ok y_pred =>
          let mse := mean_squared_error y_test y_pred in
          let st := mk_state (model_path st) (model st) (scaler st) true in
          (st, Ok {| mse := mse; rmse := sqrt mse;
                     r2 := r2_score y_test y_pred; trained_at := now |})
        end
      end
    end
  end.

Definition train (st : model_state M) (now : datetime)
  (features : option matrix) (targets : option vector)
  : model_state M * train_result * log :=
  match train_steps st now features targets with
  | (st', Ok m) =>
      (st', Metrics m, [LogRecord INFO "Model trained successfully"])
  | (st', Raise e) =>
      (st', Error (exn_str e),
       [LogRecord ERROR ("Failed to train model: " +:+ exn_str e)])
  end.

(** Attribute access on whatever object the attribute holds. *)
Definition obj_transform (o : pyobj M) (X : matrix) : result matrix :=
  match o with
  | PyScaler (Some p) => scaler_transform p X
  | PyScaler None => Raise (NotFittedError "StandardScaler is not fitted yet")
  | _ => Raise (AttributeError "object has no attribute transform")
  end.

Definition obj_predict (o : pyobj M) (X : matrix) : result vector :=
  match o with
  | PyRegressor m => rf_predict m X
  | _ => Raise (AttributeError "object has no attribute predict")
  end.

Definition obj_feature_importances (o : pyobj M) : result vector :=
  match o with
  | PyRegressor m => Ok (feature_importances_ m)
  | _ => Raise (AttributeError "object has no attribute feature_importances_")
  end.

Definition obj_getitem (o : pyobj M) (k : string) : result (pyobj M) :=
  match o with
  | PyDict items =>
      match dict_get k items with
      | Some v => Ok v
      | None => Raise (KeyError k)
      end
  | _ => Raise (TypeError "object is not subscriptable")
  end.

Definition predict (st : model_state M) (features : matrix)
  : result vector * log :=
  if negb (is_trained st) then
    (Raise (ValueError "Model must be trained before prediction"), [])
  else
    match features_scaled <-! obj_transform (scaler st) features;
          obj_predict (model st) features_scaled with
    | Ok predictions => (Ok predictions, [])
    | Raise e =>
        (Raise e, [LogRecord ERROR ("Prediction failed: " +:+ exn_str e)])
    end.

Definition predict_single (st : model_state M) (base_price : Qc) (demand : Z)
  (competition_price : Qc) (time_of_day day_of_week season : Z)
  : result Qc * log :=
  let features :=
    [[base_price; Qc_of_Z demand; competition_price;
      Qc_of_Z time_of_day; Qc_of_Z day_of_week; Qc_of_Z season]] in
  match predict st features with
  | (Ok prediction, lg) =>
      match head prediction with
      | Some p => (Ok p, lg)
      | None => (Raise (IndexError "index 0 is out of bounds"), lg)
      end
  | (Raise e, lg) => (Raise e, lg)
  end.

Definition save_model (st : model_state M) (disk : gmap string (file M))
  : gmap string (file M) * bool * log :=
  if negb (is_trained st) then
    (disk, false, [LogRecord WARNING "Model not trained, nothing to save"])
  else
    match disk !! model_path st with
    | Some Locked =>
        (disk, false,
         [LogRecord ERROR "Failed to save model: permission denied"])
    | _ =>
        (<[model_path st :=
             Pickled (PyDict [("model", model st); ("scaler", scaler st)])]>
           disk,
         true, [LogRecord INFO ("Model saved to " +:+ model_path st)])
    end.

(** [open] and [pickle.load] *)
Definition read_pickle (disk : gmap string (file M)) (path : string)
  : result (pyobj M) :=
  match disk !! path with
  | None => Raise (FileNotFoundError path)
  | Some Locked => Raise (PermissionError path)
  | Some Garbage => Raise (UnpicklingError "invalid load key")
  | Some (Pickled o) => Ok o
  end.

(** The [try] block of [load_model], with the state each assignment leaves. *)
Definition load_steps (st : model_state M) (disk : gmap string (file M))
  : model_state M * result unit :=
  match read_pickle disk (model_path st) with
  | Raise e => (st, Raise e)
  | Ok data =>
    match obj_getitem data "model" with
    | Raise e => (st, Raise e)
    | Ok m =>
      let st := mk_state (model_path st) m (scaler st) (is_trained st) in
      match obj_getitem data "scaler" with
      | Raise e => (st, Raise e)
      | Ok s =>
        let st := mk_state (model_path st) (model st) s (is_trained st) in
        let st := mk_state (model_path st) (model st) (scaler st) true in
        (st, Ok ())
      end
    end
  end.

Definition load_model (st : model_state M) (disk : gmap string (file M))
  : model_state M * bool * log :=
  match load_steps st disk with
  | (st', Ok _) =>
      (st', true, [LogRecord INFO ("Model loaded from " +:+ model_path st)])
  | (st', Raise e) =>
      (st', false,
       [LogRecord ERROR ("Failed to load model: " +:+ exn_str e)])
  end.

(** The states of a model on which neither a training nor a load has
    succeeded. *)
Inductive never_trained : model_state M → Prop :=
| nt_init path : never_trained (init path)
| nt_load st disk st' lg :
    never_trained st → load_model st disk = (st', false, lg) →
    never_trained st'
| nt_train st now features targets st' msg lg :
    never_trained st →
    train st now features targets = (st', Error msg, lg) →
    never_trained st'
| nt_save st disk disk' b lg :
    never_trained st → save_model st disk = (disk', b, lg) →
    never_trained st.

(** [dict(zip(feature_names, importances))]: the names are distinct, so the
    dict is the list of pairs in insertion order. *)
Definition get_feature_importance (st : model_state M)
  : result (list (string * Qc)) :=
  if negb (is_trained st) then Ok []
  else
    importances <-! obj_feature_importances (model st);
    Ok (zip feature_names importances).

End model.

End DynamicPricingModel.

(** ** Instances of the interfaces, for the examples: a linear congruential
    generator, an integer square root, a forest that predicts the mean *)

Module Instances.
Import Float64 Datetime Pandas Numpy Sklearn.

Definition lcg_next (g : Z) : Z := (1103515245 * g + 12345) mod 2147483648.

Definition lcg_unit (g : Z) : Qc := Q2Qc (lcg_next g # 2147483648).

Lemma Qc_unit_interval (lo hi u : Qc) :
  (lo < hi)%Qc → (0 ≤ u)%Qc → (u < 1)%Qc →
  (lo ≤ lo + (hi - lo) * u)%Qc ∧ (lo + (hi - lo) * u < hi)%Qc.
Proof.
  intros Hl H0 H1. unfold Qcle, Qclt in *.
  unfold Qcplus, Qcminus, Qcmult, Qcopp in *. simpl in *.
  rewrite ?Qred_correct in *.
  split; nra.
Qed.

Lemma lcg_unit_range (g : Z) : (0 ≤ lcg_unit g)%Qc ∧ (lcg_unit g < 1)%Qc.
Proof.
  unfold lcg_unit, lcg_next.
  pose proof (Z.mod_pos_bound (1103515245 * g + 12345) 2147483648) as Hb.
  unfold Qcle, Qclt. simpl. rewrite ?Qred_correct.
  unfold Qle, Qlt. simpl. lia.
Qed.

#[export] Program Instance lcg : RandomState Z := {|
  seed s := s mod 2147483648;
  uniform lo hi g := ((lo + (hi - lo) * lcg_unit g)%Qc, lcg_next g);
  randint lo hi g := (lo + lcg_next g mod (hi - lo), lcg_next g);
  normal mu sigma g :=
    ((mu + sigma * (lcg_unit g - Q2Qc (1 # 2)))%Qc, lcg_next g);
  permutation n g := (reverse (seq 0 n), lcg_next g)
|}.
Next Obligation.
  intros lo hi g Hl. simpl.
  destruct (lcg_unit_range g). by apply Qc_unit_interval.
Qed.
Next Obligation.
  intros lo hi g Hl. simpl.
  pose proof (Z.mod_pos_bound (lcg_next g) (hi - lo)). lia.
Qed.
Next Obligation.
  intros n g. simpl. apply reverse_Permutation.
Qed.

#[export] Instance isqrt : Sqrt :=
  λ q, Q2Qc (Z.sqrt (Qfloor (q * Qc_of_Z 1000000)%Qc) # 1000).

Definition mean_forest : Type := nat * Qc.

#[export] Program Instance mean_forest_rf : RandomForest mean_forest := {|
  rf_fit X y := (n_features X, mean y);
  rf_predict m X := Ok ((λ _, m.2) <$> X);
  feature_importances_ m :=
    replicate m.1 (Q2Qc (1 # Pos.of_nat m.1))
|}.
Next Obligation.
  intros X y. simpl. apply length_replicate.
Qed.
Next Obligation.
  intros [k m]. simpl. apply Forall_replicate.
  unfold Qcle. simpl. rewrite Qred_correct. unfold Qle. simpl. lia.
Qed.

Definition noon (day : Z) : datetime := mk_datetime day 43200 0.

(** 2026-11-03 12:00 and 2026-11-04 12:00 *)
Definition tuesday : datetime := noon 739923.
Definition wednesday : datetime := noon 739924.


(** A price column read as text. *)
Definition frame_text_price : DataFrame :=
  mk_frame [("current_price", Object)]
    [ {[ "current_price" := VStr "N/A" ]} ].

(** One record with no demand at all. *)
Definition frame_zero_demand : DataFrame :=
  mk_frame [("current_price", Float64); ("demand", Int64)]
    [ {[ "current_price" := VNum (of_Z 5); "demand" := VNum (of_Z 0) ]} ].


Definition six_targets : vector := Qc_of_Z <$> [1; 2; 3; 4; 5; 6].

(** Ten samples of six features. *)
Definition six_features : matrix :=
  (λ i : Z, Qc_of_Z <$> [i; 2 * i; i + 1; i mod 24; i mod 7; i mod 4])
  <$> seqZ 10 10.

Definition ten_targets : vector := Qc_of_Z <$> seqZ 20 10.

(** The same, the two samples of the test split changed. *)
Definition six_features_perturbed : matrix :=
  <[9%nat := Qc_of_Z <$> [1000; 1000; 1000; 23; 6; 3]]>
    (<[8%nat := Qc_of_Z <$> [0; 0; 0; 0; 0; 0]]> six_features).



Definition fresh : DynamicPricingModel.model_state mean_forest :=
  DynamicPricingModel.init "models/pricing_model.pkl".

(** The model after a training on [six_features]. *)
Definition trained : DynamicPricingModel.model_state mean_forest :=
  (DynamicPricingModel.train (G:=Z) fresh tuesday (Some six_features)
     (Some ten_targets)).1.1.

End Instances.

(** * Properties *)

Import Float64 Datetime Pandas DataPipeline Numpy RecordGenerator Sklearn.
Import DynamicPricingModel Instances.

(** ** The pricing model *)

Section model_properties.
Context {G M : Type} `{RandomState G} `{Sqrt} `{RandomForest M}.

Definition not_trained_error : exn :=
  ValueError "Model must be trained before prediction".

Lemma predict_not_trained (st : model_state M) features :
  is_trained st = false → predict st features = (Raise not_trained_error, []).
Proof. intros Hst. unfold predict. by rewrite Hst. Qed.

Lemma predict_single_not_trained (st : model_state M) b d c t w s :
  is_trained st = false →
  predict_single st b d c t w s = (Raise not_trained_error, []).
Proof.
  intros Hst. unfold predict_single. by rewrite predict_not_trained.
Qed.

(** What [load_steps] does to the trained flag: it is set exactly when the
    load succeeds. *)
Lemma load_steps_flag (st : model_state M) disk :
  match load_steps st disk with
  | (st', Ok _) => is_trained st' = true
  | (st', Raise _) => is_trained st' = is_trained st
  end.
Proof.
  unfold load_steps.
  destruct (read_pickle disk (model_path st)) as [data|e]; [|done].
  destruct (obj_getitem data "model") as [m|e]; [|done].
  by destruct (obj_getitem data "scaler") as [s|e].
Qed.

Lemma load_model_false_flag (st st' : model_state M) disk lg :
  load_model st disk = (st', false, lg) → is_trained st' = is_trained st.
Proof.
  unfold load_model. pose proof (load_steps_flag st disk) as Hf.
  destruct (load_steps st disk) as [st1 [[]|e]]; intros [= <- _]; done.
Qed.

Lemma train_steps_flag (st : model_state M) now features targets :
  match train_steps st now features targets with
  | (st', Ok _) => is_trained st' = true
  | (st', Raise _) => is_trained st' = is_trained st
  end.
Proof.
  unfold train_steps.
  destruct (training_set features targets) as [X y].
  destruct (train_test_split X y) as [[[[X1 X2] y1] y2]|e]; [|done].
  destruct (scaler_fit X1) as [p|e]; [|done]. simpl.
  destruct (scaler_transform p X1) as [X1s|e]; [|done]. simpl.
  destruct (scaler_transform p X2) as [X2s|e]; [|done]. simpl.
  by destruct (rf_predict _ X2s).
Qed.

Lemma train_error_flag (st st' : model_state M) now features targets msg lg :
  train st now features targets = (st', Error msg, lg) →
  is_trained st' = is_trained st.
Proof.
  unfold train. pose proof (train_steps_flag st now features targets) as Hf.
  destruct (train_steps st now features targets) as [st1 [m|e]];
    intros [= <- _]; done.
Qed.

Lemma never_trained_flag (st : model_state M) :
  never_trained st → is_trained st = false.
Proof.
  induction 1 as [path|st disk st' lg _ IH Hl|st now X y st' msg lg _ IH Ht|];
    [done| | |done].
  - by rewrite (load_model_false_flag _ _ _ _ Hl).
  - by rewrite (train_error_flag _ _ _ _ _ _ _ Ht).
Qed.

(** C3. On a model that was constructed and on which no training and no load
    has succeeded since (failed loads, failed trainings and refused saves
    included), [predict] raises "Model must be trained before prediction" for
    every batch, and so does [predict_single] for every six inputs; neither
    returns a price. *)
Theorem predict_untrained_raises (st : model_state M) :
  never_trained st →
  (∀ features, predict st features = (Raise not_trained_error, [])) ∧
  (∀ b d c t w s,
     predict_single st b d c t w s = (Raise not_trained_error, [])).
Proof.
  intros Hst%never_trained_flag. split.
  - intros features. by apply predict_not_trained.
  - intros b d c t w s. by apply predict_single_not_trained.
Qed.

(** [load_model] in the cases where nothing is assigned. *)
Lemma load_model_unreadable (st : model_state M) disk e :
  read_pickle disk (model_path st) = Raise e →
  load_model st disk =
    (st, false, [LogRecord ERROR ("Failed to load model: " +:+ exn_str e)]).
Proof. intros Hr. unfold load_model, load_steps. by rewrite Hr. Qed.

Lemma load_model_no_model_entry (st : model_state M) disk data e :
  read_pickle disk (model_path st) = Ok data →
  obj_getitem data "model" = Raise e →
  load_model st disk =
    (st, false, [LogRecord ERROR ("Failed to load model: " +:+ exn_str e)]).
Proof. intros Hr Hg. unfold load_model, load_steps. by rewrite Hr, Hg. Qed.

(** [load_model] when the blob holds both entries: the three attributes are
    replaced together. *)
Lemma load_model_success (st : model_state M) disk data m s :
  read_pickle disk (model_path st) = Ok data →
  obj_getitem data "model" = Ok m →
  obj_getitem data "scaler" = Ok s →
  load_model st disk =
    (mk_state (model_path st) m s true, true,
     [LogRecord INFO ("Model loaded from " +:+ model_path st)]).
Proof.
  intros Hr Hm Hs. unfold load_model, load_steps. by rewrite Hr, Hm, Hs.
Qed.

(** The outcomes of [load_model]: it returns [True] with the three
    attributes replaced together, or [False]; on [False] the state is the one
    before the call unless the blob had a 'model' entry and no 'scaler'
    entry. *)
Lemma load_model_outcomes (st st' : model_state M) disk b lg :
  load_model st disk = (st', b, lg) →
  (b = true ∧ ∃ data m s,
     read_pickle disk (model_path st) = Ok data ∧
     obj_getitem data "model" = Ok m ∧ obj_getitem data "scaler" = Ok s ∧
     st' = mk_state (model_path st) m s true) ∨
  (b = false ∧ st' = st) ∨
  (b = false ∧ ∃ data m e,
     read_pickle disk (model_path st) = Ok data ∧
     obj_getitem data "model" = Ok m ∧ obj_getitem data "scaler" = Raise e ∧
     st' = mk_state (model_path st) m (scaler st) (is_trained st)).
Proof.
  unfold load_model, load_steps.
  destruct (read_pickle disk (model_path st)) as [data|e] eqn:Hr.
  - destruct (obj_getitem data "model") as [m|e] eqn:Hm.
    + destruct (obj_getitem data "scaler") as [s|e] eqn:Hs;
        intros [= <- <- _]; [left|right; right]; naive_solver.
    + intros [= <- <- _]. by right; left.
  - intros [= <- <- _]. by right; left.
Qed.

(** C1, at the failing input. A blob that is a mapping with a 'model' entry
    and no 'scaler' entry makes [load_model] return [False] after the model
    attribute was already replaced: the prior model is lost, the prior scaler
    and trained flag stay. *)
Theorem load_model_torn_state (st : model_state M) (o : pyobj M) :
  load_model st {[ model_path st := Pickled (PyDict [("model", o)]) ]} =
    (mk_state (model_path st) o (scaler st) (is_trained st), false,
     [LogRecord ERROR "Failed to load model: scaler"]).
Proof.
  unfold load_model, load_steps, read_pickle.
  rewrite lookup_singleton_eq. reflexivity.
Qed.


Lemma take_rows_elem {A} (idx : list nat) (l : list A) x :
  x ∈ take_rows idx l → x ∈ l.
Proof.
  unfold take_rows. rewrite list_elem_of_omap.
  intros (i & _ & Hi). by eapply list_elem_of_lookup_2.
Qed.

Lemma train_test_split_rows X y X_train X_test y_train y_test :
  train_test_split X y = Ok (X_train, X_test, y_train, y_test) →
  ∀ r, r ∈ X_train → r ∈ X.
Proof.
  unfold train_test_split. repeat case_decide; try done.
  destruct (split_indices (length X)) as [i1 i2]. intros [= <- _ _ _] r.
  apply take_rows_elem.
Qed.

Lemma scaler_fit_lengths X p :
  scaler_fit X = Ok p →
  X ≠ [] ∧ length (mean_ p) = n_features X ∧
  length (scale_ p) = n_features X.
Proof.
  unfold scaler_fit, check_array. repeat case_decide; try done. simpl.
  intros [= <-]. simpl. by rewrite !length_fmap, !length_seq.
Qed.






(** The scaler attribute that [train] leaves. *)
Lemma train_scaler (st : model_state M) now features targets :
  scaler (train st now features targets).1.1 =
  match train_test_split (training_set features targets).1
          (training_set features targets).2 with
  | Raise _ => scaler st
  | Ok (X_train, _, _, _) =>
      match scaler_fit X_train with
      | Raise _ => PyScaler None
      | Ok p => PyScaler (Some p)
      end
  end.
Proof.
  unfold train, train_steps.
  destruct (training_set features targets) as [X y]. simpl.
  destruct (train_test_split X y) as [[[[X1 X2] y1] y2]|e]; [|done].
  destruct (scaler_fit X1) as [p|e]; [|done]. simpl.
  destruct (scaler_transform p X1) as [X1s|e]; [|done]. simpl.
  destruct (scaler_transform p X2) as [X2s|e]; [|done]. simpl.
  by destruct (rf_predict _ X2s).
Qed.

Lemma take_rows_ext {A} (idx : list nat) (l k : list A) :
  (∀ i, i ∈ idx → k !! i = l !! i) → take_rows idx k = take_rows idx l.
Proof.
  unfold take_rows. induction idx as [|i idx IH]; intros Hagree; [done|].
  cbn. rewrite Hagree by left.
  assert (omap (λ i, k !! i) idx = omap (λ i, l !! i) idx) as ->; [|done].
  apply IH. intros j Hj. apply Hagree. by right.
Qed.

(** C4. The scaler that [train] leaves is a function of the training split
    only: two trainings whose feature arrays have the same number of samples
    and agree on the rows of the training split (the targets, and the rows of
    the test split, being arbitrary) leave the same scaler. *)
Theorem scaler_fitted_on_training_split (st : model_state M) now now'
    (X X' : matrix) (y y' : vector) :
  length X' = length X → length y' = length y →
  (∀ i, i ∈ (split_indices (length X)).1 → X' !! i = X !! i) →
  scaler (train st now' (Some X') (Some y')).1.1 =
  scaler (train st now (Some X) (Some y)).1.1.
Proof.
  intros HX Hy Hagree. rewrite !train_scaler. simpl.
  unfold train_test_split. rewrite HX, Hy.
  repeat case_decide; try done.
  destruct (split_indices (length X)) as [i1 i2]. simpl in *.
  by rewrite (take_rows_ext i1 X X' Hagree).
Qed.

End model_properties.

(** *** The model properties at concrete inputs *)

Lemma predict_untrained_raises_witness :
  never_trained (G:=Z) fresh ∧
  predict fresh six_features = (Raise not_trained_error, []) ∧
  predict_single fresh (Qc_of_Z 50) 450 (Qc_of_Z 55) 18 5 2
    = (Raise not_trained_error, []).
Proof.
  pose proof (nt_init (G:=Z) (M:=mean_forest) "models/pricing_model.pkl")
    as Hfresh.
  destruct (predict_untrained_raises (G:=Z) fresh Hfresh) as [Hp Hs].
  split; [exact Hfresh|]. split; [apply Hp | apply Hs].
Defined.



Lemma scaler_fitted_on_training_split_witness :
  six_features_perturbed ≠ six_features ∧
  (∀ i, i ∈ (split_indices (G:=Z) (length six_features)).1 →
        six_features_perturbed !! i = six_features !! i) ∧
  scaler (train (G:=Z) fresh wednesday (Some six_features_perturbed)
            (Some (six_targets ++ [0%Qc; 0%Qc; 0%Qc; 0%Qc]))).1.1 =
  scaler (train (G:=Z) fresh tuesday (Some six_features)
            (Some ten_targets)).1.1.
Proof.
  assert (∀ i, i ∈ (split_indices (G:=Z) (length six_features)).1 →
               six_features_perturbed !! i = six_features !! i) as Hagree.
  { apply (proj1 (Forall_forall _ _)).
    change (split_indices (G:=Z) (length six_features)).1
      with (reverse (seq 0 8)).
    repeat constructor. }
  split; [|split; [exact Hagree|]].
  - intros Heq.
    apply (f_equal (λ X : matrix,
             (λ r : list Qc, Qnum (this (at_ r 0%Qc 0))) <$> X !! 9%nat))
      in Heq.
    vm_compute in Heq. discriminate.
  - apply (scaler_fitted_on_training_split (G:=Z) fresh tuesday wednesday
             six_features six_features_perturbed); [reflexivity..|exact Hagree].
Defined.

(** ** pandas: duplicates, filling, assignment *)

Section pandas_properties.

Definition kept (seen rs : list row) : list row :=
  mask_filter (negb <$> duplicated_from seen rs) rs.

Lemma kept_cons seen r rs :
  kept seen (r :: rs) =
  if decide (r ∈ seen) then kept (r :: seen) rs else r :: kept (r :: seen) rs.
Proof. unfold kept. simpl. by case_decide; simplify_eq/=; case_bool_decide. Qed.

Lemma elem_of_kept seen rs x : x ∈ kept seen rs ↔ x ∈ rs ∧ x ∉ seen.
Proof.
  revert seen. induction rs as [|r rs IH]; intros seen.
  - unfold kept. simpl. rewrite elem_of_nil. tauto.
  - rewrite kept_cons. case_decide as Hr.
    + rewrite IH, !elem_of_cons. naive_solver.
    + rewrite !elem_of_cons, IH, elem_of_cons.
      destruct (decide (x = r)) as [->|]; naive_solver.
Qed.

Lemma NoDup_kept seen rs : NoDup (kept seen rs).
Proof.
  revert seen. induction rs as [|r rs IH]; intros seen.
  - constructor.
  - rewrite kept_cons. case_decide; [apply IH|].
    constructor; [|apply IH]. rewrite elem_of_kept, elem_of_cons. naive_solver.
Qed.


Lemma length_duplicated_from seen rs :
  length (duplicated_from seen rs) = length rs.
Proof. revert seen. induction rs; intros; simpl; [done|]. by rewrite IHrs. Qed.

Lemma count_true_cons b l :
  count_true (b :: l) = ((if b then 1 else 0) + count_true l)%nat.
Proof. unfold count_true. rewrite filter_cons. by destruct b. Qed.

Lemma count_true_kept seen rs :
  (count_true (duplicated_from seen rs) + length (kept seen rs))%nat
  = length rs.
Proof.
  revert seen. induction rs as [|r rs IH]; intros seen; [done|].
  rewrite kept_cons. simpl. rewrite count_true_cons.
  case_bool_decide; case_decide; try done; simpl; by rewrite <-(IH (r :: seen)).
Qed.

Lemma length_kept_distinct rs : length (kept [] rs) = length (remove_dups rs).
Proof.
  apply Permutation_length, NoDup_Permutation.
  - apply NoDup_kept.
  - apply NoDup_remove_dups.
  - intros x. rewrite elem_of_kept, elem_of_remove_dups, elem_of_nil. tauto.
Qed.




Lemma drop_duplicates_rows df : rows (drop_duplicates df) = kept [] (rows df).
Proof. done. Qed.







Lemma filter_none {A} (P : A → Prop) `{∀ x, Decision (P x)} l :
  Forall (λ x, ¬ P x) l → filter P l = [].
Proof.
  induction 1 as [|a l Ha _ IH]; [done|].
  by rewrite filter_cons, decide_False, IH.
Qed.


Lemma lookup_set_cell c f (r : row) : set_cell c f r !! c = f r.
Proof.
  unfold set_cell. destruct (f r); [apply lookup_insert_eq|apply lookup_delete_eq].
Qed.

Lemma lookup_set_cell_ne c c' f (r : row) :
  c ≠ c' → set_cell c f r !! c' = r !! c'.
Proof.
  intros Hne. unfold set_cell.
  destruct (f r); [by apply lookup_insert_ne|by apply lookup_delete_ne].
Qed.


Lemma column_dtype_set_dtype c d cols :
  column_dtype c (set_dtype c d cols) = Some d.
Proof.
  induction cols as [|[c' d'] cols IH]; simpl.
  - by rewrite decide_True.
  - case_decide; simpl; [by rewrite decide_True|by rewrite decide_False].
Qed.

Lemma column_dtype_set_dtype_ne c c' d cols :
  c ≠ c' → column_dtype c' (set_dtype c d cols) = column_dtype c' cols.
Proof.
  intros Hne. induction cols as [|[c0 d0] cols IH]; simpl.
  - by rewrite decide_False.
  - case_decide as Hc; simpl.
    + subst c0. by rewrite !decide_False.
    + by rewrite IH.
Qed.


Lemma elem_of_set_dtype c c' d cols :
  c' ∈ (set_dtype c d cols).*1 ↔ c' = c ∨ c' ∈ cols.*1.
Proof.
  induction cols as [|[c0 d0] cols IH]; simpl.
  - rewrite list_elem_of_singleton, elem_of_nil. tauto.
  - case_decide; simpl; [subst c0|]; rewrite !elem_of_cons; [|rewrite IH];
      naive_solver.
Qed.

Lemma has_column_assign c c' d f df :
  c ≠ c' → has_column c' (assign c d f df) = has_column c' df.
Proof.
  intros Hne. unfold has_column. apply bool_decide_ext. simpl.
  rewrite elem_of_set_dtype. naive_solver.
Qed.


Lemma num_at_set_cell_ne c c' f (r : row) :
  c ≠ c' → num_at c' (set_cell c f r) = num_at c' r.
Proof. intros Hne. unfold num_at. by rewrite lookup_set_cell_ne. Qed.

Lemma is_numeric_cell_set_cell_ne c c' f (r : row) :
  c ≠ c' → is_numeric_cell c' (set_cell c f r) = is_numeric_cell c' r.
Proof. intros Hne. unfold is_numeric_cell. by rewrite lookup_set_cell_ne. Qed.

Lemma require_numbers_ok c df :
  require_numbers c df = Ok () ↔
  Forall (λ r, is_numeric_cell c r = true) (rows df).
Proof.
  unfold require_numbers. rewrite Forall_forall.
  destruct (forallb _ _) eqn:Hall.
  - split; [|done]. intros _ r Hr. rewrite forallb_forall in Hall.
    by apply Hall, list_elem_of_In.
  - split; [done|]. intros HF.
    assert (forallb (is_numeric_cell c) (rows df) = true); [|congruence].
    apply forallb_forall. intros r Hr. by apply HF, list_elem_of_In.
Qed.


End pandas_properties.

(** ** The data pipeline: validation and transformation *)

Section pipeline_properties.



(** The label [pd.cut] gives a finite demand. *)
Lemma demand_level_finite (q : Qc) :
  demand_level (Some (Fin q)) =
  if decide (q ≤ 0)%Qc then None
  else if decide (q ≤ Qc_of_Z 100)%Qc then Some "low"
  else if decide (q ≤ Qc_of_Z 300)%Qc then Some "medium"
  else if decide (q ≤ Qc_of_Z 500)%Qc then Some "high"
  else Some "very_high".
Proof.
  unfold demand_level, cut, searchsorted_left, demand_bins, of_Z. simpl.
  rewrite !filter_cons, filter_nil. simpl.
  repeat case_decide; repeat case_bool_decide; simpl in *; try done;
    exfalso;
    repeat match goal with
    | H : _ ∨ _ |- _ => destruct H
    | H : ¬ (_ ∨ _) |- _ => apply Decidable.not_or in H as [? ?]
    end;
    try discriminate; try lia;
    unfold Qcle, Qclt in *; simpl in *;
    rewrite ?Qred_correct in *; unfold inject_Z in *; lra.
Qed.

(** Every demand above zero gets exactly one of the four labels. *)
Lemma demand_level_positive (x : float) :
  ltb (Fin 0%Qc) x = true →
  ∃ l, demand_level (Some x) = Some l ∧ l ∈ demand_labels.
Proof.
  destruct x as [|q|]; [done| |].
  - unfold ltb. intros Hq%bool_decide_eq_true. rewrite demand_level_finite.
    rewrite decide_False by (by apply Qclt_not_le).
    unfold demand_labels.
    repeat case_decide; eexists; (split; [done|]);
      rewrite !elem_of_cons; tauto.
  - intros _. exists "very_high". split; [done|].
    unfold demand_labels. rewrite !elem_of_cons. tauto.
Qed.

(** C8, at the failing input. A record whose demand is 0 comes out of
    [transform_data] without a demand level: [pd.cut] with these bins leaves
    the left edge 0 outside the first bucket. *)
Theorem demand_zero_unlabelled :
  demand_level (Some (of_Z 0)) = None ∧
  ∃ r, rows (transform_data frame_zero_demand).1 = [r] ∧
       num_at "demand" r = Some (of_Z 0) ∧
       r !! "demand_level" = None.
Proof.
  split; [vm_compute; reflexivity|].
  eexists. split; [vm_compute; reflexivity|]. split; vm_compute; reflexivity.
Qed.

(** C9, as the code has it. When a step of the transformation raises,
    [transform_data] returns the frame it was given and logs the failure as
    one event of level ERROR; no call of [transform_data] logs at level
    WARNING. *)
Theorem transform_failure_fallback (data : DataFrame) (e : exn) :
  transform_steps data = Raise e →
  transform_data data =
    (data, [LogRecord ERROR ("Failed to transform data: " +:+ exn_str e)]) ∧
  ∀ ev, ev ∈ (transform_data data).2 → ev_level ev = ERROR.
Proof.
  intros Hsteps. unfold transform_data. rewrite Hsteps. split; [done|].
  intros ev Hev. simpl in Hev. apply list_elem_of_singleton in Hev. by subst.
Qed.

Lemma transform_failure_fallback_witness :
  transform_steps frame_text_price =
    Raise (TypeError "unsupported operand type in column current_price") ∧
  (transform_data frame_text_price).1 = frame_text_price ∧
  ∀ ev, ev ∈ (transform_data frame_text_price).2 → ev_level ev = ERROR.
Proof.
  assert (transform_steps frame_text_price =
            Raise (TypeError "unsupported operand type in column current_price"))
    as Hsteps by (vm_compute; reflexivity).
  destruct (transform_failure_fallback _ _ Hsteps) as [Hret Hlog].
  split; [exact Hsteps|]. split; [|exact Hlog].
  rewrite Hret. reflexivity.
Defined.

(** A failing transformation that logs no warning-level event. *)
Lemma transform_failure_not_warning :
  (∃ e, transform_steps frame_text_price = Raise e) ∧
  ¬ ∃ ev, ev ∈ (transform_data frame_text_price).2 ∧ ev_level ev = WARNING.
Proof.
  split; [eexists; vm_compute; reflexivity|].
  intros (ev & Hev & Hlevel). vm_compute in Hev.
  apply list_elem_of_singleton in Hev. subst ev. discriminate.
Qed.

(** What each step of the transformation establishes, and what makes it
    change nothing. *)
Definition prices_filtered (df : DataFrame) : Prop :=
  has_column "current_price" df = true → prices_positive df.

Definition price_ratio_set (df : DataFrame) : Prop :=
  has_column "current_price" df && has_column "base_price" df = true →
  column_dtype "price_ratio" (columns df) = Some Float64 ∧
  Forall (λ r : row,
            is_numeric_cell "current_price" r = true ∧
            is_numeric_cell "base_price" r = true ∧
            r !! "price_ratio" = VNum <$> price_ratio r) (rows df).

Definition demand_level_set (df : DataFrame) : Prop :=
  has_column "demand" df = true →
  column_dtype "demand_level" (columns df) = Some Category ∧
  Forall (λ r : row,
            is_numeric_cell "demand" r = true ∧
            r !! "demand_level" = VCat <$> demand_level (num_at "demand" r))
    (rows df).

Lemma price_ratio_set_cell c f (r : row) :
  c ≠ "current_price" → c ≠ "base_price" →
  price_ratio (set_cell c f r) = price_ratio r.
Proof.
  intros H1 H2. unfold price_ratio. by rewrite !num_at_set_cell_ne.
Qed.

Lemma remove_negative_prices_ok df df' :
  remove_negative_prices df = Ok df' →
  columns df' = columns df ∧ prices_filtered df'.
Proof.
  unfold remove_negative_prices, prices_filtered, has_column.
  case_bool_decide as Hc.
  - destruct (require_numbers _ df) as [[]|e]; [|done]. simpl.
    intros [= <-]. split; [done|]. intros _.
    unfold prices_positive. simpl. apply Forall_forall.
    by intros r [Hr _]%list_elem_of_filter.
  - intros [= <-]. split; [done|]. by rewrite bool_decide_eq_true.
Qed.


Lemma add_price_ratio_ok df df' :
  add_price_ratio df = Ok df' →
  price_ratio_set df' ∧ (prices_filtered df → prices_filtered df').
Proof.
  unfold add_price_ratio, price_ratio_set, prices_filtered.
  destruct (has_column "current_price" df && has_column "base_price" df)
    eqn:Hcols.
  - destruct (require_numbers "current_price" df) as [[]|e] eqn:Hcp; [|done].
    destruct (require_numbers "base_price" df) as [[]|e] eqn:Hbp; [|done].
    simpl. intros [= <-]. rewrite !has_column_assign by done.
    apply require_numbers_ok in Hcp, Hbp. split.
    + intros _. simpl. split; [apply column_dtype_set_dtype|].
      apply Forall_fmap, Forall_forall. intros r Hr. simpl.
      rewrite !is_numeric_cell_set_cell_ne, lookup_set_cell by done.
      rewrite price_ratio_set_cell by done.
      split_and!; [|  |done].
      * by apply (proj1 (Forall_forall _ _) Hcp).
      * by apply (proj1 (Forall_forall _ _) Hbp).
    + intros Hpos Hc. specialize (Hpos Hc). unfold prices_positive in *.
      simpl. apply Forall_fmap. eapply Forall_impl; [exact Hpos|].
      intros r Hr. simpl. by rewrite num_at_set_cell_ne.
  - intros [= <-]. split; [|done]. by rewrite Hcols.
Qed.


Lemma add_demand_level_ok df df' :
  add_demand_level df = Ok df' →
  demand_level_set df' ∧
  (prices_filtered df → prices_filtered df') ∧
  (price_ratio_set df → price_ratio_set df').
Proof.
  unfold add_demand_level, demand_level_set, prices_filtered, price_ratio_set.
  destruct (has_column "demand" df) eqn:Hcol.
  - destruct (require_numbers "demand" df) as [[]|e] eqn:Hdm; [|done].
    simpl. intros [= <-]. rewrite !has_column_assign by done.
    apply require_numbers_ok in Hdm. split_and!.
    + intros _. simpl. split; [apply column_dtype_set_dtype|].
      apply Forall_fmap, Forall_forall. intros r Hr. simpl.
      rewrite is_numeric_cell_set_cell_ne, lookup_set_cell by done.
      rewrite num_at_set_cell_ne by done.
      split; [|done]. by apply (proj1 (Forall_forall _ _) Hdm).
    + intros Hpos Hc. specialize (Hpos Hc). unfold prices_positive in *.
      simpl. apply Forall_fmap. eapply Forall_impl; [exact Hpos|].
      intros r Hr. simpl. by rewrite num_at_set_cell_ne.
    + intros Hset Hc. destruct (Hset Hc) as [Hd Hrows]. simpl.
      rewrite column_dtype_set_dtype_ne by done. split; [done|].
      apply Forall_fmap. eapply Forall_impl; [exact Hrows|].
      intros r (H1 & H2 & H3). simpl.
      rewrite !is_numeric_cell_set_cell_ne, lookup_set_cell_ne by done.
      by rewrite price_ratio_set_cell.
  - intros [= <-]. split_and!; [|done..]. by rewrite Hcol.
Qed.


(** The output of a transformation that did not fail. *)
Lemma transform_steps_ok data out :
  transform_steps data = Ok out →
  prices_filtered out ∧ price_ratio_set out ∧ demand_level_set out.
Proof.
  unfold transform_steps.
  destruct (remove_negative_prices _) as [d3|e] eqn:H3; [|done]. simpl.
  destruct (add_price_ratio d3) as [d4|e] eqn:H4; [|done]. simpl.
  destruct (add_demand_level d4) as [d5|e] eqn:H5; [|done]. simpl.
  intros [= <-].
  apply remove_negative_prices_ok in H3 as [_ Hp3].
  apply add_price_ratio_ok in H4 as [Hr4 Hp4].
  apply add_demand_level_ok in H5 as (Hd5 & Hp5 & Hr5). auto.
Qed.


(** Every record of a transformed set that has a [demand] field carries the
    label of its bucket, or none when [pd.cut] gives none. *)
Lemma transform_labels_demand data out :
  transform_steps data = Ok out → has_column "demand" out = true →
  Forall (λ r : row,
            r !! "demand_level" = VCat <$> demand_level (num_at "demand" r))
    (rows out).
Proof.
  intros (_ & _ & Hd)%transform_steps_ok Hcol.
  destruct (Hd Hcol) as [_ Hrows].
  eapply Forall_impl; [exact Hrows|]. by intros r [_ Hr].
Qed.




End pipeline_properties.

(** ** The record generator *)

Section loops.
Context {A S : Type}.
Implicit Types (body : S → A → result S) (l : list A).

(** A property of the state that every iteration keeps holds after the
    loop. *)
Lemma for_each_invariant (I : S → Prop) body l s s' :
  (∀ s a s', a ∈ l → I s → body s a = Ok s' → I s') →
  I s → for_each body l s = Ok s' → I s'.
Proof.
  revert s. induction l as [|a l IH]; intros s Hstep Hs; simpl.
  - by intros [= <-].
  - destruct (body s a) as [s1|e] eqn:Hb; [|done]. simpl.
    apply IH; [|by eapply Hstep; [left|..]].
    intros s2 a2 s2' Ha2. apply Hstep. by right.
Qed.

(** A loop whose iterations cannot raise under an invariant returns. *)
Lemma for_each_returns (I : S → Prop) body l s :
  (∀ s a, a ∈ l → I s → ∃ s', body s a = Ok s' ∧ I s') →
  I s → ∃ s', for_each body l s = Ok s' ∧ I s'.
Proof.
  revert s. induction l as [|a l IH]; intros s Hstep Hs; simpl; [by eauto|].
  destruct (Hstep s a) as (s1 & -> & Hs1); [by left|done|]. simpl.
  apply IH; [|done]. intros s2 a2 Ha2. apply Hstep. by right.
Qed.

(** Each iteration adds [k] to a measure of the state. *)
Lemma for_each_measure (m : S → nat) (k : nat) body l s s' :
  (∀ s a s', body s a = Ok s' → m s' = (m s + k)%nat) →
  for_each body l s = Ok s' → m s' = (m s + k * length l)%nat.
Proof.
  intros Hstep. revert s. induction l as [|a l IH]; intros s; simpl.
  - intros [= <-]. lia.
  - destruct (body s a) as [s1|e] eqn:Hb; [|done]. simpl.
    intros Hl%IH. rewrite Hl, (Hstep _ _ _ Hb). lia.
Qed.


End loops.

Section datetime_properties.

Lemma hour_range t : 0 <= second_of_day t < 86400 → 0 <= hour t <= 23.
Proof.
  intros Hs. unfold hour.
  pose proof (Z.div_pos (second_of_day t) 3600).
  assert (second_of_day t / 3600 < 24); [|lia].
  apply Z.div_lt_upper_bound; lia.
Qed.

Lemma weekday_range t : 0 <= weekday t <= 6.
Proof.
  unfold weekday. pose proof (Z.mod_pos_bound (ordinal t + 6) 7). lia.
Qed.

Lemma month_of_ordinal_range o : 1 <= month_of_ordinal o <= 12.
Proof.
  unfold month_of_ordinal.
  set (n := (((o - 1) mod 146097) mod 36524) mod 1461 mod 365).
  assert (0 <= n < 365) as Hn by (apply Z.mod_pos_bound; lia).
  case_decide; [lia|].
  rewrite Z.shiftr_div_pow2 by lia. change (2 ^ 5) with 32.
  set (m := (n + 50) / 32).
  assert (1 <= m <= 12) as Hm.
  { unfold m. split.
    - apply Z.div_le_lower_bound; lia.
    - assert ((n + 50) / 32 < 13); [|lia]. apply Z.div_lt_upper_bound; lia. }
  case_decide as Hpre; [|lia].
  assert (m ≠ 1); [|lia]. intros ->.
  rewrite bool_decide_eq_false_2 in Hpre by lia. simpl in Hpre.
  unfold days_before_month in Hpre. simpl in Hpre. lia.
Qed.

Lemma season_range t : 0 <= (month t - 1) / 3 <= 3.
Proof.
  unfold month. pose proof (month_of_ordinal_range (ordinal t)).
  split; [apply Z.div_pos; lia|].
  assert ((month_of_ordinal (ordinal t) - 1) / 3 < 4); [|lia].
  apply Z.div_lt_upper_bound; lia.
Qed.

Lemma add_days_ok t d t' :
  add_days t d = Ok t' →
  ordinal t' = ordinal t + d ∧ second_of_day t' = second_of_day t ∧
  microsecond t' = microsecond t.
Proof. unfold add_days. case_decide; [|done]. by intros [= <-]. Qed.

End datetime_properties.

Section generator_properties.
Context {G : Type} `{RandomState G}.

Lemma record_fields pid ts b c d k :
  let r := record pid ts b c d k in
  num_at "current_price" r = Some (Fin (round2 c)) ∧
  num_at "base_price" r = Some (Fin (round2 b)) ∧
  num_at "competition_price" r = Some (Fin (round2 k)) ∧
  num_at "demand" r = Some (of_Z d) ∧
  num_at "time_of_day" r = Some (of_Z (hour ts)) ∧
  num_at "day_of_week" r = Some (of_Z (weekday ts)) ∧
  num_at "season" r = Some (of_Z ((month ts - 1) / 3)).
Proof. repeat split; reflexivity. Qed.


Lemma round_half_even_floor (q : Qc) : Qfloor q <= round_half_even q.
Proof.
  unfold round_half_even. repeat case_decide; try destruct (Z.even _); lia.
Qed.

Lemma round2_pos (q : Qc) : (1 ≤ q)%Qc → (0 < round2 q)%Qc.
Proof.
  intros Hq. unfold round2.
  pose proof (round_half_even_floor (q * Qc_of_Z 100)%Qc) as Hf.
  assert (100 <= Qfloor (q * Qc_of_Z 100)%Qc) as Hfl.
  { apply Z.le_trans with (Qfloor (inject_Z 100)); [by rewrite Qfloor_Z|].
    apply Qfloor_resp_le.
    unfold Qcle in Hq. change (this 1%Qc) with (Qred 1) in Hq.
    change (this (q * Qc_of_Z 100)%Qc) with (Qred (q * inject_Z 100)).
    rewrite Qred_correct in *. unfold inject_Z. lra. }
  unfold Qclt. change (this 0%Qc) with (Qred 0).
  change (this (Q2Qc ?x)) with (Qred x). rewrite !Qred_correct.
  unfold Qlt. simpl. lia.
Qed.

Lemma scaled_price_ge_1 (b u lo : Qc) :
  (Qc_of_Z 10 ≤ b)%Qc → (dec 1 10 ≤ lo)%Qc → (lo ≤ u)%Qc → (1 ≤ b * u)%Qc.
Proof.
  unfold Qcle. intros Hb Hlo Hu.
  change (this (b * u)%Qc) with (Qred (b * u)).
  change (this 1%Qc) with (Qred 1).
  change (this (Qc_of_Z 10)) with (inject_Z 10) in Hb.
  change (this (dec 1 10)) with (Qred (1 # 10)) in Hlo.
  rewrite !Qred_correct in *. unfold inject_Z in Hb. nra.
Qed.

Lemma base_price_ge_1 (b : Qc) : (Qc_of_Z 10 ≤ b)%Qc → (1 ≤ b)%Qc.
Proof.
  unfold Qcle. change (this 1%Qc) with (Qred 1).
  change (this (Qc_of_Z 10)) with (inject_Z 10).
  rewrite !Qred_correct. unfold inject_Z. lra.
Qed.

(** One iteration of the inner loop, when it does not raise. *)
Lemma day_step_ok pid b start g data day st' :
  day_step pid b start (g, data) day = Ok st' →
  ∃ ts d u v g',
    add_days start day = Ok ts ∧
    50 <= d < 500 ∧
    (dec 85 100 ≤ u)%Qc ∧ (dec 9 10 ≤ v)%Qc ∧
    st' = (g', data ++ [record pid ts b (b * v)%Qc d (b * u)%Qc]).
Proof.
  unfold day_step, timedelta_days. case_decide; [|done]. simpl.
  destruct (add_days start day) as [ts|e]; [|done]. simpl.
  pose proof (randint_range 50 500 g) as Hd.
  destruct (randint 50 500 g) as [d g1].
  pose proof (uniform_range (dec 85 100) (dec 115 100) g1) as Hu.
  destruct (uniform (dec 85 100) (dec 115 100) g1) as [u g2].
  pose proof (uniform_range (dec 9 10) (dec 11 10) g2) as Hv.
  destruct (uniform (dec 9 10) (dec 11 10) g2) as [v g3].
  intros [= <-]. exists ts, d, u, v, g3. simpl in *.
  split_and!; [done|lia|lia| | |done].
  - by apply Hu.
  - by apply Hv.
Qed.

Lemma generated_record_in_range pid ts b u v d :
  0 <= second_of_day ts < 86400 →
  (Qc_of_Z 10 ≤ b)%Qc → (dec 85 100 ≤ u)%Qc → (dec 9 10 ≤ v)%Qc →
  50 <= d < 500 →
  record_in_range (record pid ts b (b * v)%Qc d (b * u)%Qc).
Proof.
  intros Hs Hb Hu Hv Hd.
  destruct (record_fields pid ts b (b * v)%Qc d (b * u)%Qc)
    as (F1 & F2 & F3 & F4 & F5 & F6 & F7).
  unfold record_in_range, price_above_zero, integer_between. split_and!.
  - eexists. split; [exact F1|].
    eapply round2_pos, (scaled_price_ge_1 _ _ (dec 9 10)); by try vm_compute.
  - eexists. split; [exact F2|]. by apply round2_pos, base_price_ge_1.
  - eexists. split; [exact F3|].
    eapply round2_pos, (scaled_price_ge_1 _ _ (dec 85 100)); by try vm_compute.
  - eexists. split; [exact F4|]. lia.
  - eexists. split; [exact F5|]. by apply hour_range.
  - eexists. split; [exact F6|]. apply weekday_range.
  - eexists. split; [exact F7|]. apply season_range.
Qed.

Lemma for_each_days_in_range pid b start days st st' :
  0 <= second_of_day start < 86400 → (Qc_of_Z 10 ≤ b)%Qc →
  Forall record_in_range st.2 →
  for_each (day_step pid b start) (range days) st = Ok st' →
  Forall record_in_range st'.2.
Proof.
  intros Hs Hb. apply (for_each_invariant (λ st, Forall record_in_range st.2)).
  intros [g data] day s' _ Hdata Hstep. simpl in *.
  apply day_step_ok in Hstep as (ts & d & u & v & g' & Hts & Hd & Hu & Hv & ->).
  simpl. apply Forall_app. split; [done|]. constructor; [|done].
  apply add_days_ok in Hts as (_ & Hsec & _).
  apply generated_record_in_range; [by rewrite Hsec|done..].
Qed.

Lemma generate_records_in_range now n days data :
  0 <= second_of_day now < 86400 →
  generate_records now n days = Ok data → Forall record_in_range data.
Proof.
  intros Hs. unfold generate_records.
  destruct (timedelta_days days) as [delta|e]; [|done]. simpl.
  destruct (add_days now (- delta)) as [start|e] eqn:Hstart; [|done]. simpl.
  destruct (for_each _ _ _) as [st|e] eqn:Hloop; [|done]. simpl.
  intros [= <-]. apply add_days_ok in Hstart as (_ & Hsec & _).
  revert Hloop. apply (for_each_invariant (λ st, Forall record_in_range st.2));
    [|done].
  intros [g data] pid s' _ Hdata. unfold product_step.
  pose proof (uniform_range (Qc_of_Z 10) (Qc_of_Z 200) g) as Hb.
  destruct (uniform (Qc_of_Z 10) (Qc_of_Z 200) g) as [b g1]. simpl in *.
  apply for_each_days_in_range; [by rewrite Hsec| |done]. by apply Hb.
Qed.

(** The number of records. *)
Lemma generate_records_length now n days data :
  generate_records now n days = Ok data →
  length data = (Z.to_nat n * Z.to_nat days)%nat.
Proof.
  unfold generate_records.
  destruct (timedelta_days days) as [delta|e]; [|done]. simpl.
  destruct (add_days now (- delta)) as [start|e]; [|done]. simpl.
  destruct (for_each _ _ _) as [st|e] eqn:Hloop; [|done]. simpl.
  intros [= <-].
  apply (for_each_measure (λ st, length st.2) (Z.to_nat days)) in Hloop.
  - simpl in Hloop. unfold range1 in Hloop. rewrite length_seqZ in Hloop. lia.
  - intros [g data] pid s'. unfold product_step.
    destruct (uniform (Qc_of_Z 10) (Qc_of_Z 200) g) as [b g1].
    intros Hdays.
    apply (for_each_measure (λ st, length st.2) 1%nat) in Hdays.
    + unfold range in Hdays. rewrite length_seqZ in Hdays. simpl in *. lia.
    + intros [g2 data2] day s2 Hstep.
      apply day_step_ok in Hstep as (? & ? & ? & ? & ? & _ & _ & _ & _ & ->).
      simpl. rewrite length_app. simpl. lia.
Qed.

(** The generator returns when the dates stay in range. *)
Lemma generate_records_returns now n days :
  valid now → 0 <= days < ordinal now →
  ∃ data, generate_records now n days = Ok data.
Proof.
  intros (Hord & _ & _) Hdays. unfold MINORDINAL, MAXORDINAL in Hord.
  unfold generate_records, timedelta_days, MAX_DELTA_DAYS.
  rewrite decide_True by lia. simpl.
  unfold add_days at 1. unfold MINORDINAL, MAXORDINAL.
  rewrite decide_True by lia. simpl.
  set (start := mk_datetime _ _ _).
  destruct (for_each_returns (λ _, True) (product_step start days)
              (range1 n) (seed 42, [])) as (st & -> & _); [|done|by eauto].
  intros [g data] pid _ _. unfold product_step.
  destruct (uniform (Qc_of_Z 10) (Qc_of_Z 200) g) as [b g1].
  apply (for_each_returns (λ _, True)); [|done].
  intros [g2 data2] day Hday%elem_of_seqZ _.
  unfold day_step, timedelta_days, MAX_DELTA_DAYS.
  rewrite decide_True by lia. simpl.
  unfold add_days, MINORDINAL, MAXORDINAL. subst start. simpl.
  rewrite decide_True by lia. simpl.
  destruct (randint 50 500 g2) as [d g3].
  destruct (uniform (dec 85 100) (dec 115 100) g3) as [u g4].
  destruct (uniform (dec 9 10) (dec 11 10) g4) as [v g5]. eauto.
Qed.



Lemma rows_frame_of_records data : rows (frame_of_records data) = data.
Proof. by destruct data. Qed.

Lemma in_range_numeric c lo hi (r : row) :
  integer_between c lo hi r → is_numeric_cell c r = true.
Proof.
  intros (k & Hk & _). unfold num_at in Hk. unfold is_numeric_cell.
  by destruct (r !! c) as [[]|].
Qed.

Lemma price_above_zero_numeric c (r : row) :
  price_above_zero c r →
  is_numeric_cell c r = true ∧ lt0 (num_at c r) = false.
Proof.
  intros (q & Hq & Hpos). split.
  - unfold num_at in Hq. unfold is_numeric_cell. by destruct (r !! c) as [[]|].
  - rewrite Hq. simpl. apply bool_decide_eq_false_2.
    by apply Qcle_not_lt, Qclt_le_weak.
Qed.

(** Validating a non-empty set of records in range. *)
Lemma validate_generated now data :
  data ≠ [] → Forall record_in_range data →
  ∃ rep lg, validate_data now (frame_of_records data) = (Ok rep, lg) ∧
            negative_prices rep = Some 0%nat.
Proof.
  intros Hne Hrange. destruct data as [|r0 data]; [done|].
  unfold frame_of_records, validate_data.
  set (df := mk_frame record_columns (r0 :: data)).
  change (has_column "current_price" df) with true.
  change (has_column "demand" df) with true. cbv iota.
  rewrite (proj2 (require_numbers_ok "current_price" df)).
  2:{ eapply Forall_impl; [exact Hrange|].
      intros r (Hp & _). by apply price_above_zero_numeric. }
  rewrite (proj2 (require_numbers_ok "demand" df)).
  2:{ eapply Forall_impl; [exact Hrange|].
      intros r (_ & _ & _ & Hd & _). by eapply in_range_numeric. }
  simpl. eexists _, _. split; [done|]. simpl. f_equal.
  unfold count_where. subst df. simpl rows.
  rewrite filter_none; [done|].
  eapply Forall_impl; [exact Hrange|].
  intros r (Hp & _). apply price_above_zero_numeric in Hp as [_ ->]. done.
Qed.

(** C10. When the clock reads a valid time, every record the generator
    returns has prices above zero, a demand from 50 to 499, an hour from 0 to
    23, a weekday from 0 to 6 and a season from 0 to 3, and validating the
    returned set (at least one product and one day) reports zero negative
    prices.  The generator does return when the start date exists, that is
    when [days] is less than the ordinal of today. *)
Theorem generated_records_in_range (now : datetime) (n_products days : Z) :
  valid now → 1 <= n_products → 1 <= days →
  (days < ordinal now →
   ∃ df lg, generate_sample_data now n_products days = (Ok df, lg)) ∧
  (∀ df lg, generate_sample_data now n_products days = (Ok df, lg) →
     Forall record_in_range (rows df) ∧
     ∀ now', ∃ rep lg',
       validate_data now' df = (Ok rep, lg') ∧
       negative_prices rep = Some 0%nat).
Proof.
  intros Hvalid Hn Hdays. split.
  - intros Hstart.
    destruct (generate_records_returns now n_products days) as [data Hdata];
      [done|lia|].
    unfold generate_sample_data. rewrite Hdata. eauto.
  - intros df lg. unfold generate_sample_data.
    destruct (generate_records now n_products days) as [data|e] eqn:Hdata;
      [|done].
    intros [= <- _].
    assert (Forall record_in_range data) as Hrange.
    { eapply generate_records_in_range; [|done]. apply Hvalid. }
    rewrite rows_frame_of_records. split; [done|]. intros now'.
    apply validate_generated; [|done].
    apply generate_records_length in Hdata. intros ->. simpl in Hdata. nia.
Qed.


End generator_properties.

(** *** The generator properties at concrete inputs *)

Lemma generated_records_in_range_witness :
  valid tuesday ∧ 1 <= 2 ∧ 1 <= 3 ∧ 3 < ordinal tuesday ∧
  ∃ df lg, generate_sample_data (G:=Z) tuesday 2 3 = (Ok df, lg) ∧
           Forall record_in_range (rows df) ∧ len df = 6%nat.
Proof.
  assert (valid tuesday) as Hvalid
    by (unfold valid, MINORDINAL, MAXORDINAL; simpl; lia).
  destruct (generated_records_in_range (G:=Z) tuesday 2 3 Hvalid)
    as [Hret Hrange]; [lia..|].
  destruct Hret as (df & lg & Hdf); [simpl; lia|].
  split; [exact Hvalid|]. split; [lia|]. split; [lia|]. split; [simpl; lia|].
  exists df, lg. split; [exact Hdf|]. split; [apply (Hrange df lg Hdf)|].
  assert (generate_sample_data (G:=Z) tuesday 2 3 = (Ok df, lg) →
          len df = 6%nat) as Hlen; [|exact (Hlen Hdf)].
  unfold generate_sample_data.
  destruct (generate_records (G:=Z) tuesday 2 3) as [data|e] eqn:Hdata;
    [|discriminate].
  intros [= <- _]. unfold len. rewrite rows_frame_of_records.
  by rewrite (generate_records_length _ _ _ _ Hdata).
Defined.



(** * Further properties of the code *)

(** ** The pricing model: persistence, training, prediction *)

Section model_extras.
Context {G M : Type} `{RandomState G} `{Sqrt} `{RandomForest M}.

Lemma state_eta (st : model_state M) :
  mk_state (model_path st) (model st) (scaler st) (is_trained st) = st.
Proof. by destruct st. Qed.

(** X1. Saving a trained model to a writable path and loading that path,
    into any instance configured with it, succeeds and restores the model and
    the scaler, so the loaded instance predicts as the saved one. *)
Theorem save_load_round_trip (st st0 : model_state M) disk :
  is_trained st = true →
  disk !! model_path st ≠ Some Locked →
  model_path st0 = model_path st →
  ∃ disk' lg lg',
    save_model st disk = (disk', true, lg) ∧
    load_model st0 disk' = (st, true, lg') ∧
    ∀ features,
      predict (load_model st0 disk').1.1 features = predict st features.
Proof.
  intros Htrained Hfree Hpath. unfold save_model. rewrite Htrained. simpl.
  assert (∃ lg', load_model st0
            (<[model_path st :=
                 Pickled (PyDict [("model", model st); ("scaler", scaler st)])]>
               disk) = (st, true, lg')) as [lg' Hload].
  { eexists. erewrite load_model_success.
    - rewrite Hpath, <-Htrained, state_eta. reflexivity.
    - unfold read_pickle. rewrite Hpath, lookup_insert_eq. reflexivity.
    - reflexivity.
    - reflexivity. }
  destruct (disk !! model_path st) as [[]|] eqn:Hfile; [done|..];
    eexists _, _, lg'; (split; [reflexivity|]); (split; [exact Hload|]);
    intros features; by rewrite Hload.
Qed.

(** X2. [save_model] writes at most the model's own path: every other path
    of the disk is as before, a refused save leaves the whole disk as it was,
    and a model that was never trained is always refused, with a warning. *)
Theorem save_model_frame (st : model_state M) disk disk' b lg :
  save_model st disk = (disk', b, lg) →
  (∀ p, p ≠ model_path st → disk' !! p = disk !! p) ∧
  (b = false → disk' = disk) ∧
  (never_trained st →
   b = false ∧ lg = [LogRecord WARNING "Model not trained, nothing to save"]).
Proof.
  unfold save_model. destruct (is_trained st) eqn:Htrained; simpl.
  - destruct (disk !! model_path st) as [[]|] eqn:Hfile; intros [= <- <- <-];
      (split_and!; [|done|by intros Hn%never_trained_flag; congruence]);
      intros p Hp; by rewrite ?lookup_insert_ne.
  - by intros [= <- <- <-].
Qed.

Lemma n_test_of_spec (n : nat) :
  n_test_of n = Z.to_nat ((Z.of_nat n + 4) / 5).
Proof.
  unfold n_test_of, Qceiling, Qfloor. simpl.
  f_equal. change (Z.pos (10 * 1)) with 10.
  Z.div_mod_to_equations. lia.
Qed.

Lemma train_size_zero (n : nat) :
  (n - n_test_of n = 0)%nat ↔ (n < 2)%nat.
Proof.
  rewrite n_test_of_spec.
  assert (Z.of_nat n - (Z.of_nat n + 4) / 5 <= 0 ↔ Z.of_nat n < 2)
    by (Z.div_mod_to_equations; lia).
  assert (0 <= (Z.of_nat n + 4) / 5) by (Z.div_mod_to_equations; lia).
  lia.
Qed.

(** The split returns exactly for two or more samples with as many
    targets. *)
Lemma train_test_split_returns (X : matrix) (y : vector) :
  (∃ parts, train_test_split X y = Ok parts) ↔
  length y = length X ∧ (2 <= length X)%nat.
Proof.
  unfold train_test_split.
  pose proof (train_size_zero (length X)) as Hz.
  repeat case_decide.
  - split; [by intros [? [=]]|]. intros [? ?]. done.
  - split; [by intros [? [=]]|]. lia.
  - destruct (split_indices (length X)) as [i1 i2].
    split; [lia|]. intros _. by eexists.
Qed.

(** X3. Training on fewer than two samples, or on features and targets of
    different lengths, returns an error result and leaves the model, the
    scaler and the trained flag as they were. *)
Theorem train_rejects_degenerate (st : model_state M) now
    (X : matrix) (y : vector) :
  length y ≠ length X ∨ (length X < 2)%nat →
  ∃ msg,
    train st now (Some X) (Some y) =
      (st, Error msg, [LogRecord ERROR ("Failed to train model: " +:+ msg)]).
Proof.
  intros Hbad. unfold train, train_steps. simpl.
  destruct (train_test_split X y) as [parts|e] eqn:Hsplit.
  - assert (∃ parts, train_test_split X y = Ok parts) as Hok by eauto.
    apply train_test_split_returns in Hok. lia.
  - by eexists.
Qed.

Lemma scaler_fit_no_columns (X : matrix) :
  Forall (λ r, r = []) X → ∃ e, scaler_fit X = Raise e.
Proof.
  intros Hempty. unfold scaler_fit, check_array.
  case_decide; [by eexists|]. case_decide; [by eexists|].
  destruct Hempty as [|r X -> _]; done.
Qed.

(** X4. A training that fails after the split can leave a trained model
    unusable: on a feature array without columns (two or more samples) the
    scaler has already been replaced by an unfitted one when the fit raises,
    the model and the trained flag stay, and every later prediction raises
    "not fitted". *)
Theorem failed_retraining_unfits_scaler (st : model_state M) now
    (X : matrix) (y : vector) :
  is_trained st = true →
  (2 <= length X)%nat → length y = length X → Forall (λ r, r = []) X →
  ∃ msg lg,
    let st' := mk_state (model_path st) (model st) (PyScaler None) true in
    train st now (Some X) (Some y) = (st', Error msg, lg) ∧
    ∀ features,
      predict st' features =
        (Raise (NotFittedError "StandardScaler is not fitted yet"),
         [LogRecord ERROR
            "Prediction failed: StandardScaler is not fitted yet"]).
Proof.
  intros Htrained Hn Hy Hempty. unfold train, train_steps. simpl.
  destruct (train_test_split X y) as [[[[X1 X2] y1] y2]|e] eqn:Hsplit.
  - destruct (scaler_fit_no_columns X1) as [e He].
    { apply Forall_forall. intros r Hr.
      eapply (proj1 (Forall_forall _ _) Hempty), train_test_split_rows; done. }
    rewrite He, Htrained. by eexists _, _.
  - assert (∃ parts, train_test_split X y = Ok parts) as [parts Hparts]
      by (by apply train_test_split_returns).
    congruence.
Qed.

Lemma forallb_lengths (k : nat) (X : matrix) :
  forallb (λ r : list Qc, bool_decide (length r = k)) X = true ↔
  Forall (λ r, length r = k) X.
Proof.
  rewrite forallb_forall, Forall_forall. split; intros Hall r Hr.
  - by apply (bool_decide_eq_true_1 _), Hall, list_elem_of_In.
  - by apply bool_decide_eq_true_2, Hall, list_elem_of_In.
Qed.

Lemma scaler_transform_shaped (p : ScalingParameters) (X : matrix) :
  X ≠ [] → (1 <= length (mean_ p))%nat →
  Forall (λ r, length r = length (mean_ p)) X →
  scaler_transform p X = Ok (scale_row p <$> X).
Proof.
  intros Hne Hk Hall. unfold scaler_transform, check_array.
  rewrite decide_False by done.
  rewrite decide_False.
  - simpl. by rewrite (proj2 (forallb_lengths _ _) Hall).
  - destruct Hall as [|r X Hr _]; [done|]. unfold n_features. simpl. lia.
Qed.

Lemma scaler_transform_misshaped (p : ScalingParameters) (X : matrix) :
  X = [] ∨ ¬ Forall (λ r, length r = length (mean_ p)) X →
  ∃ msg, scaler_transform p X = Raise (ValueError msg).
Proof.
  intros Hbad. unfold scaler_transform, check_array.
  case_decide; [by eexists|]. case_decide; [by eexists|]. simpl.
  destruct (forallb _ X) eqn:Hall; [|by eexists].
  apply forallb_lengths in Hall. naive_solver.
Qed.

(** The shape of a successful training, with its metrics. *)
Lemma train_metrics_ok (st st' : model_state M) now features targets m lg :
  train st now features targets = (st', Metrics m, lg) →
  ∃ X_train X_test y_train y_test p Xs Xt y_pred,
    train_test_split (training_set features targets).1
      (training_set features targets).2
      = Ok (X_train, X_test, y_train, y_test) ∧
    scaler_fit X_train = Ok p ∧
    scaler_transform p X_train = Ok Xs ∧
    scaler_transform p X_test = Ok Xt ∧
    rf_predict (rf_fit Xs y_train) Xt = Ok y_pred ∧
    st' = mk_state (model_path st) (PyRegressor (rf_fit Xs y_train))
            (PyScaler (Some p)) true ∧
    m = mk_metrics (mean_squared_error y_test y_pred)
          (sqrt (mean_squared_error y_test y_pred))
          (r2_score y_test y_pred) now.
Proof.
  unfold train, train_steps.
  destruct (training_set features targets) as [X y]. simpl.
  destruct (train_test_split X y) as [[[[X1 X2] y1] y2]|e]; [|done].
  destruct (scaler_fit X1) as [p|e] eqn:Hp; [|done]. simpl.
  destruct (scaler_transform p X1) as [X1s|e] eqn:Hs1; [|done]. simpl.
  destruct (scaler_transform p X2) as [X2s|e] eqn:Hs2; [|done]. simpl.
  destruct (rf_predict _ X2s) as [y_pred|e] eqn:Hpred; [|done].
  intros [= <- <- _]. by exists X1, X2, y1, y2, p, X1s, X2s, y_pred.
Qed.

(** X5. After a successful training the model holds a forest and a scaler
    fitted on at least one feature, is marked trained, and reports the
    clock's time and the square root of its MSE as RMSE.  A prediction on a
    non-empty batch whose rows have the scaler's number of features is what
    the forest predicts on the scaled rows; on an empty batch or a row of
    another width it raises [ValueError] after logging the failure at level
    ERROR. *)
Theorem trained_model_predicts (st st' : model_state M) now features targets
    m lg :
  train st now features targets = (st', Metrics m, lg) →
  ∃ forest p,
    st' = mk_state (model_path st) (PyRegressor forest) (PyScaler (Some p))
            true ∧
    (1 <= length (mean_ p))%nat ∧
    trained_at m = now ∧ rmse m = sqrt (mse m) ∧
    (∀ X, X ≠ [] → Forall (λ r, length r = length (mean_ p)) X →
       predict st' X =
         match rf_predict forest (scale_row p <$> X) with
         | Ok y => (Ok y, [])
         | Raise e =>
             (Raise e, [LogRecord ERROR ("Prediction failed: " +:+ exn_str e)])
         end) ∧
    (∀ X, X = [] ∨ ¬ Forall (λ r, length r = length (mean_ p)) X →
       ∃ msg,
         predict st' X =
           (Raise (ValueError msg),
            [LogRecord ERROR ("Prediction failed: " +:+ msg)])).
Proof.
  intros (X1 & X2 & y1 & y2 & p & Xs & Xt & y_pred & Hsplit & Hfit & Hs & Ht
          & Hpred & -> & ->)%train_metrics_ok.
  exists (rf_fit Xs y1), p.
  assert (1 <= length (mean_ p))%nat as Hk.
  { pose proof (scaler_fit_lengths _ _ Hfit) as (_ & -> & _).
    revert Hfit. unfold scaler_fit, check_array.
    repeat case_decide; try done. lia. }
  split_and!; [done..| |].
  - intros X Hne Hall. unfold predict. simpl.
    rewrite scaler_transform_shaped by done. simpl.
    by destruct (rf_predict _ _).
  - intros X Hbad. unfold predict. simpl.
    destruct (scaler_transform_misshaped p X Hbad) as [msg ->]. by exists msg.
Qed.

(** X19. [load_model] accepts any mapping with a 'model' and a 'scaler'
    entry, whatever the two hold: it returns [True] and marks the model
    trained.  When the 'scaler' entry is not a scaler every prediction then
    raises [AttributeError] (after an ERROR event), and when the 'model'
    entry is not a forest [get_feature_importance] raises it. *)
Theorem load_model_accepts_any_entries (st : model_state M) (m s : pyobj M) :
  let st' := mk_state (model_path st) m s true in
  (load_model st
     {[ model_path st := Pickled (PyDict [("model", m); ("scaler", s)]) ]}).1
    = (st', true) ∧
  ((∀ p, s ≠ PyScaler p) →
   ∀ X, predict st' X =
          (Raise (AttributeError "object has no attribute transform"),
           [LogRecord ERROR
              "Prediction failed: object has no attribute transform"])) ∧
  ((∀ forest, m ≠ PyRegressor forest) →
   get_feature_importance st' =
     Raise (AttributeError "object has no attribute feature_importances_")).
Proof.
  split_and!.
  - unfold load_model, load_steps, read_pickle.
    rewrite lookup_singleton_eq. reflexivity.
  - intros Hs X. unfold predict. simpl. destruct s as [| |p| |]; try done.
    by destruct (Hs p).
  - intros Hm. unfold get_feature_importance. simpl.
    destruct m as [|forest| | |]; try done. by destruct (Hm forest).
Qed.

Lemma draws_length {A} (draw : G → A * G) n g :
  length (draws draw n g).1 = n.
Proof.
  revert g. induction n as [|n IH]; intros g; [done|]. simpl.
  destruct (draw g) as [x g1]. specialize (IH g1).
  destruct (draws draw n g1) as [xs g2]. simpl in *. by rewrite IH.
Qed.

Lemma draws_Forall {A} (P : A → Prop) (draw : G → A * G) n g :
  (∀ g, P (draw g).1) → Forall P (draws draw n g).1.
Proof.
  intros Hdraw. revert g. induction n as [|n IH]; intros g; [by constructor|].
  simpl. specialize (Hdraw g). destruct (draw g) as [x g1]. specialize (IH g1).
  destruct (draws draw n g1) as [xs g2]. simpl in *. by constructor.
Qed.

Lemma at_lookup {A} (l : list A) d i x : l !! i = Some x → at_ l d i = x.
Proof. unfold at_. by intros ->. Qed.

(** A row of synthetic training features. *)
Definition training_row_in_range (r : list Qc) : Prop :=
  ∃ (b f : Qc) (d t w s : Z),
    r = [b; Qc_of_Z d; (b * f)%Qc; Qc_of_Z t; Qc_of_Z w; Qc_of_Z s] ∧
    (Qc_of_Z 10 ≤ b)%Qc ∧ (b < Qc_of_Z 100)%Qc ∧
    (dec 8 10 ≤ f)%Qc ∧ (f < dec 12 10)%Qc ∧
    0 <= d < 1000 ∧ 0 <= t < 24 ∧ 0 <= w < 7 ∧ 0 <= s < 4.

(** X6. [generate_training_data(n)] returns [n] feature rows and [n]
    targets; every row has the six features in order, with the base price in
    [10, 100), the demand in [0, 1000), the competition price the base price
    times a factor in [0.8, 1.2), the hour in [0, 24), the weekday in [0, 7)
    and the season in [0, 4). *)
Theorem generate_training_data_shape (n_samples : nat) :
  length (generate_training_data n_samples).1 = n_samples ∧
  length (generate_training_data n_samples).2 = n_samples ∧
  Forall training_row_in_range (generate_training_data n_samples).1.
Proof.
  unfold generate_training_data.
  set (g0 := seed 42 : G).
  pose proof (draws_length (uniform (Qc_of_Z 10) (Qc_of_Z 100)) n_samples g0)
    as L1.
  pose proof (draws_Forall (λ b, (Qc_of_Z 10 ≤ b)%Qc ∧ (b < Qc_of_Z 100)%Qc)
                (uniform (Qc_of_Z 10) (Qc_of_Z 100)) n_samples g0) as F1.
  destruct (draws (uniform (Qc_of_Z 10) (Qc_of_Z 100)) n_samples g0)
    as [bs g1].
  pose proof (draws_length (randint 0 1000) n_samples g1) as L2.
  pose proof (draws_Forall (λ d, 0 <= d < 1000) (randint 0 1000)
                n_samples g1) as F2.
  destruct (draws (randint 0 1000) n_samples g1) as [ds g2].
  pose proof (draws_length (uniform (dec 8 10) (dec 12 10)) n_samples g2)
    as L3.
  pose proof (draws_Forall (λ f, (dec 8 10 ≤ f)%Qc ∧ (f < dec 12 10)%Qc)
                (uniform (dec 8 10) (dec 12 10)) n_samples g2) as F3.
  destruct (draws (uniform (dec 8 10) (dec 12 10)) n_samples g2) as [fs g3].
  pose proof (draws_length (randint 0 24) n_samples g3) as L4.
  pose proof (draws_Forall (λ d, 0 <= d < 24) (randint 0 24) n_samples g3)
    as F4.
  destruct (draws (randint 0 24) n_samples g3) as [ts g4].
  pose proof (draws_length (randint 0 7) n_samples g4) as L5.
  pose proof (draws_Forall (λ d, 0 <= d < 7) (randint 0 7) n_samples g4)
    as F5.
  destruct (draws (randint 0 7) n_samples g4) as [ws g5].
  pose proof (draws_length (randint 0 4) n_samples g5) as L6.
  pose proof (draws_Forall (λ d, 0 <= d < 4) (randint 0 4) n_samples g5)
    as F6.
  destruct (draws (randint 0 4) n_samples g5) as [ss g6].
  destruct (draws (normal 0%Qc (Qc_of_Z 2)) n_samples g6) as [es g7].
  simpl in *. rewrite !length_fmap, !length_seq. split_and!; [done..|].
  assert (Qc_of_Z 10 < Qc_of_Z 100)%Qc as Hb100 by reflexivity.
  assert (dec 8 10 < dec 12 10)%Qc as Hf12 by reflexivity.
  specialize (F1 (λ g, uniform_range _ _ g Hb100)).
  specialize (F2 (λ g, randint_range 0 1000 g ltac:(lia))).
  specialize (F3 (λ g, uniform_range _ _ g Hf12)).
  specialize (F4 (λ g, randint_range 0 24 g ltac:(lia))).
  specialize (F5 (λ g, randint_range 0 7 g ltac:(lia))).
  specialize (F6 (λ g, randint_range 0 4 g ltac:(lia))).
  apply Forall_fmap, Forall_forall. intros i [_ Hi]%elem_of_seq. simpl in Hi.
  destruct (lookup_lt_is_Some_2 bs i) as [b Hb]; [lia|].
  destruct (lookup_lt_is_Some_2 ds i) as [d Hd]; [lia|].
  destruct (lookup_lt_is_Some_2 fs i) as [f Hf]; [lia|].
  destruct (lookup_lt_is_Some_2 ts i) as [t Ht]; [lia|].
  destruct (lookup_lt_is_Some_2 ws i) as [w Hw]; [lia|].
  destruct (lookup_lt_is_Some_2 ss i) as [s Hs]; [lia|].
  exists b, f, d, t, w, s. simpl.
  rewrite (at_lookup bs _ _ _ Hb), (at_lookup ds _ _ _ Hd),
    (at_lookup ts _ _ _ Ht), (at_lookup ws _ _ _ Hw), (at_lookup ss _ _ _ Hs).
  rewrite (at_lookup (zip_with Qcmult bs fs) _ i (b * f)%Qc)
    by (by rewrite lookup_zip_with, Hb, Hf).
  pose proof (proj1 (Forall_lookup _ _) F1 _ _ Hb) as [? ?].
  pose proof (proj1 (Forall_lookup _ _) F2 _ _ Hd).
  pose proof (proj1 (Forall_lookup _ _) F3 _ _ Hf) as [? ?].
  pose proof (proj1 (Forall_lookup _ _) F4 _ _ Ht).
  pose proof (proj1 (Forall_lookup _ _) F5 _ _ Hw).
  pose proof (proj1 (Forall_lookup _ _) F6 _ _ Hs).
  simpl in *. split_and!; (done || lia).
Qed.

End model_extras.

Lemma train_rejects_degenerate_witness :
  ∃ msg,
    train (G:=Z) fresh tuesday (Some [[1%Qc; 1%Qc]]) (Some [1%Qc]) =
      (fresh, Error msg,
       [LogRecord ERROR ("Failed to train model: " +:+ msg)]).
Proof.
  apply (train_rejects_degenerate (G:=Z) fresh tuesday [[1%Qc; 1%Qc]] [1%Qc]).
  right. simpl. lia.
Defined.

Lemma failed_retraining_unfits_scaler_witness :
  is_trained trained = true ∧
  ∃ msg lg,
    train (G:=Z) trained wednesday (Some [[]; []; []])
      (Some [1%Qc; 1%Qc; 1%Qc]) =
      (mk_state (model_path trained) (model trained) (PyScaler None) true,
       Error msg, lg).
Proof.
  assert (is_trained trained = true) as Htrained by (vm_compute; reflexivity).
  split; [exact Htrained|].
  destruct (failed_retraining_unfits_scaler (G:=Z) trained wednesday
              [[]; []; []] [1%Qc; 1%Qc; 1%Qc] Htrained)
    as (msg & lg & Hre & _); [simpl; lia|reflexivity|by repeat constructor|].
  by exists msg, lg.
Defined.

Lemma save_load_round_trip_witness :
  is_trained trained = true ∧
  (∅ : gmap string (file mean_forest)) !! model_path trained ≠ Some Locked ∧
  model_path fresh = model_path trained ∧
  ∃ disk' lg lg',
    save_model trained ∅ = (disk', true, lg) ∧
    load_model fresh disk' = (trained, true, lg').
Proof.
  assert (is_trained trained = true) as Htrained by (vm_compute; reflexivity).
  assert ((∅ : gmap string (file mean_forest)) !! model_path trained
          ≠ Some Locked) as Hfree by (by rewrite lookup_empty).
  assert (model_path fresh = model_path trained) as Hpath by reflexivity.
  destruct (save_load_round_trip trained fresh ∅ Htrained Hfree Hpath)
    as (disk' & lg & lg' & Hsave & Hload & _).
  split; [exact Htrained|]. split; [exact Hfree|]. split; [exact Hpath|].
  by exists disk', lg, lg'.
Defined.

Lemma save_model_frame_witness :
  save_model fresh ∅ =
    (∅, false, [LogRecord WARNING "Model not trained, nothing to save"]) ∧
  never_trained (G:=Z) fresh.
Proof.
  assert (save_model fresh ∅ =
            (∅, false,
             [LogRecord WARNING "Model not trained, nothing to save"]))
    as Hsave by reflexivity.
  pose proof (save_model_frame (G:=Z) fresh ∅ ∅ false _ Hsave) as Hframe.
  split; [exact Hsave|]. apply nt_init.
Defined.

Lemma trained_model_predicts_witness :
  ∃ st' m lg,
    train (G:=Z) fresh tuesday (Some six_features) (Some ten_targets)
      = (st', Metrics m, lg) ∧
    ∃ y, predict st' six_features = (Ok y, []) ∧ length y = 10%nat.
Proof.
  eassert (train (G:=Z) fresh tuesday (Some six_features) (Some ten_targets)
           = (_, Metrics _, _)) as Ht by (vm_compute; reflexivity).
  destruct (trained_model_predicts (G:=Z) _ _ _ _ _ _ _ Ht)
    as (forest & p & Hst & _).
  eexists _, _, _. split; [exact Ht|].
  eexists. split; [vm_compute; reflexivity|reflexivity].
Defined.

Lemma load_model_accepts_any_entries_witness :
  (load_model fresh
     {[ model_path fresh :=
          Pickled (PyDict [("model", PyStr "x"); ("scaler", PyStr "y")]) ]}).1
    = (mk_state (model_path fresh) (PyStr "x") (PyStr "y") true, true) ∧
  get_feature_importance
    (mk_state (M:=mean_forest) (model_path fresh) (PyStr "x") (PyStr "y") true)
    = Raise (AttributeError "object has no attribute feature_importances_").
Proof.
  destruct (load_model_accepts_any_entries fresh (PyStr "x")
              (PyStr "y")) as (Hload & _ & Himp).
  split; [exact Hload|]. apply Himp. intros forest. discriminate.
Defined.

(** ** The data pipeline: what the transformation keeps and needs *)

Section pipeline_extras.

Lemma length_kept_le seen rs : (length (kept seen rs) <= length rs)%nat.
Proof. pose proof (count_true_kept seen rs). lia. Qed.

Lemma remove_negative_prices_len df df' :
  remove_negative_prices df = Ok df' → (len df' <= len df)%nat.
Proof.
  unfold remove_negative_prices.
  destruct (has_column "current_price" df); [|by intros [= <-]].
  destruct (require_numbers _ df) as [[]|e]; [|done]. simpl.
  intros [= <-]. unfold len. simpl. apply length_filter.
Qed.

Lemma add_price_ratio_len df df' :
  add_price_ratio df = Ok df' → len df' = len df.
Proof.
  unfold add_price_ratio.
  destruct (_ && _); [|by intros [= <-]].
  destruct (require_numbers "current_price" df) as [[]|e]; [|done].
  destruct (require_numbers "base_price" df) as [[]|e]; [|done]. simpl.
  intros [= <-]. unfold len. simpl. by rewrite length_fmap.
Qed.

Lemma add_demand_level_len df df' :
  add_demand_level df = Ok df' → len df' = len df.
Proof.
  unfold add_demand_level.
  destruct (has_column "demand" df); [|by intros [= <-]].
  destruct (require_numbers "demand" df) as [[]|e]; [|done]. simpl.
  intros [= <-]. unfold len. simpl. by rewrite length_fmap.
Qed.

(** X7. [transform_data] never returns more records than it was given; when
    no step fails, it returns at most as many records as there are distinct
    records in the input. *)
Theorem transform_never_adds (data : DataFrame) :
  (len (transform_data data).1 <= len data)%nat ∧
  (∀ out, transform_steps data = Ok out →
     (len out <= length (remove_dups (rows data)))%nat).
Proof.
  assert (∀ out, transform_steps data = Ok out →
            (len out <= length (remove_dups (rows data)))%nat) as Hdistinct.
  { intros out. unfold transform_steps.
    destruct (remove_negative_prices _) as [d3|e] eqn:H3; [|done]. simpl.
    destruct (add_price_ratio d3) as [d4|e] eqn:H4; [|done]. simpl.
    destruct (add_demand_level d4) as [d5|e] eqn:H5; [|done]. simpl.
    intros [= <-].
    apply remove_negative_prices_len in H3.
    apply add_price_ratio_len in H4. apply add_demand_level_len in H5.
    rewrite H5, H4. etrans; [exact H3|].
    unfold len, fillna, drop_duplicates, duplicated. simpl.
    rewrite length_fmap. fold (kept [] (rows data)).
    by rewrite length_kept_distinct. }
  split; [|done]. unfold transform_data.
  destruct (transform_steps data) as [out|e] eqn:Hsteps; simpl; [|done].
  etrans; [by apply Hdistinct|].
  rewrite <-length_kept_distinct. apply length_kept_le.
Qed.

Lemma is_numeric_fill_cell c (r : row) cm :
  is_numeric_cell c r = true → is_numeric_cell c (fill_cell r cm) = true.
Proof.
  intros Hr. unfold fill_cell.
  destruct (r !! cm.1) eqn:Hcell; [done|]. destruct cm.2; [|done].
  unfold is_numeric_cell. destruct (decide (cm.1 = c)) as [->|Hne].
  - by rewrite lookup_insert_eq.
  - by rewrite lookup_insert_ne.
Qed.

Lemma is_numeric_fill c (r : row) meds :
  is_numeric_cell c r = true →
  is_numeric_cell c (foldl fill_cell r meds) = true.
Proof.
  revert r. induction meds as [|cm meds IH]; intros r Hr; [done|].
  simpl. by apply IH, is_numeric_fill_cell.
Qed.

Definition numeric_field (c : string) (df : DataFrame) : Prop :=
  Forall (λ r, is_numeric_cell c r = true) (rows df).

Lemma numeric_field_cleaned c df :
  numeric_field c df →
  numeric_field c
    (fillna (medians (select_dtypes_number (drop_duplicates df))
               (drop_duplicates df)) (drop_duplicates df)).
Proof.
  unfold numeric_field. intros Hnum. simpl. apply Forall_fmap, Forall_forall.
  intros r Hr. simpl. apply is_numeric_fill.
  apply (proj1 (Forall_forall _ _) Hnum).
  unfold duplicated in Hr. fold (kept [] (rows df)) in Hr.
  by apply elem_of_kept in Hr as [Hr _].
Qed.

Lemma remove_negative_prices_numeric df :
  numeric_field "current_price" df →
  ∃ df', remove_negative_prices df = Ok df' ∧
         ∀ c, numeric_field c df → numeric_field c df'.
Proof.
  intros Hcp. unfold remove_negative_prices.
  destruct (has_column "current_price" df); [|by eauto].
  rewrite (proj2 (require_numbers_ok _ _) Hcp). simpl.
  eexists. split; [done|]. intros c Hc. unfold numeric_field in *. simpl.
  apply Forall_forall. intros r [_ Hr]%list_elem_of_filter.
  by apply (proj1 (Forall_forall _ _) Hc).
Qed.

Lemma add_price_ratio_numeric df :
  numeric_field "current_price" df → numeric_field "base_price" df →
  ∃ df', add_price_ratio df = Ok df' ∧
         ∀ c, c ≠ "price_ratio" → numeric_field c df → numeric_field c df'.
Proof.
  intros Hcp Hbp. unfold add_price_ratio.
  destruct (_ && _); [|by eauto].
  rewrite (proj2 (require_numbers_ok _ _) Hcp).
  rewrite (proj2 (require_numbers_ok _ _) Hbp). simpl.
  eexists. split; [done|]. intros c Hne Hc. unfold numeric_field in *. simpl.
  apply Forall_fmap. eapply Forall_impl; [exact Hc|]. intros r Hr. simpl.
  by rewrite is_numeric_cell_set_cell_ne.
Qed.

(** X8. A record set whose [current_price], [base_price] and [demand] cells
    are numbers or missing is always transformed: no step raises, the
    fallback is not taken and the only log event is the INFO line with the
    number of records.  Whatever a step raises is a [TypeError]. *)
Theorem transform_succeeds_on_numbers (data : DataFrame) :
  (numeric_field "current_price" data → numeric_field "base_price" data →
   numeric_field "demand" data →
   ∃ out, transform_steps data = Ok out ∧
          transform_data data =
            (out, [LogRecord INFO
                     ("Transformed data: " +:+ pretty (len out)
                      +:+ " records")])) ∧
  (∀ e, transform_steps data = Raise e → ∃ msg, e = TypeError msg).
Proof.
  split.
  - intros Hcp Hbp Hdm.
    apply numeric_field_cleaned in Hcp, Hbp, Hdm.
    unfold transform_data, transform_steps.
    destruct (remove_negative_prices_numeric _ Hcp) as (d3 & -> & H3). simpl.
    destruct (add_price_ratio_numeric d3) as (d4 & -> & H4); [by auto..|].
    simpl. unfold add_demand_level.
    destruct (has_column "demand" d4); [|by eauto].
    rewrite (proj2 (require_numbers_ok _ _)); [by eauto|].
    by apply H4, H3.
  - intros e. unfold transform_steps.
    assert (∀ c df e, require_numbers c df = Raise e → ∃ msg, e = TypeError msg)
      as Hreq.
    { intros c df e'. unfold require_numbers.
      destruct (forallb _ _); [done|]. intros [= <-]. by eexists. }
    set (d2 := fillna _ _).
    unfold remove_negative_prices at 1.
    destruct (has_column "current_price" d2); simpl.
    + destruct (require_numbers "current_price" d2) as [[]|e1] eqn:H1; simpl;
        [|intros [= <-]; by eapply Hreq].
      set (d3 := rows_where _ d2). unfold add_price_ratio at 1.
      destruct (_ && _); simpl.
      * destruct (require_numbers "current_price" d3) as [[]|e2] eqn:H2;
          simpl; [|intros [= <-]; by eapply Hreq].
        destruct (require_numbers "base_price" d3) as [[]|e3] eqn:H3;
          simpl; [|intros [= <-]; by eapply Hreq].
        unfold add_demand_level. destruct (has_column "demand" _); [|done].
        destruct (require_numbers "demand" _) as [[]|e4] eqn:H4; simpl;
          [done|intros [= <-]; by eapply Hreq].
      * unfold add_demand_level. destruct (has_column "demand" _); [|done].
        destruct (require_numbers "demand" _) as [[]|e4] eqn:H4; simpl;
          [done|intros [= <-]; by eapply Hreq].
    + unfold add_price_ratio at 1. destruct (_ && _); simpl.
      * destruct (require_numbers "current_price" d2) as [[]|e2] eqn:H2;
          simpl; [|intros [= <-]; by eapply Hreq].
        destruct (require_numbers "base_price" d2) as [[]|e3] eqn:H3;
          simpl; [|intros [= <-]; by eapply Hreq].
        unfold add_demand_level. destruct (has_column "demand" _); [|done].
        destruct (require_numbers "demand" _) as [[]|e4] eqn:H4; simpl;
          [done|intros [= <-]; by eapply Hreq].
      * unfold add_demand_level. destruct (has_column "demand" _); [|done].
        destruct (require_numbers "demand" _) as [[]|e4] eqn:H4; simpl;
          [done|intros [= <-]; by eapply Hreq].
Qed.

(** The label of a finite demand, by its bucket. *)
Definition bucket_of (q : Qc) : option string :=
  if decide (q ≤ 0)%Qc then None
  else if decide (q ≤ Qc_of_Z 100)%Qc then Some "low"
  else if decide (q ≤ Qc_of_Z 300)%Qc then Some "medium"
  else if decide (q ≤ Qc_of_Z 500)%Qc then Some "high"
  else Some "very_high".

(** X9. In the output of a transformation that did not fail, every record
    with a finite [current_price] and a finite non-zero [base_price] carries
    their quotient as [price_ratio] (when both columns exist), and every
    record carries as [demand_level] the label of the bucket of its demand:
    none for a missing demand or one that is not above 0, low up to 100,
    medium up to 300, high up to 500, very_high above (when the [demand]
    column exists). *)
Theorem transform_derived_features (data out : DataFrame) :
  transform_steps data = Ok out →
  (has_column "current_price" out && has_column "base_price" out = true →
   Forall (λ r : row, ∀ a b,
             num_at "current_price" r = Some (Fin a) →
             num_at "base_price" r = Some (Fin b) → b ≠ 0%Qc →
             r !! "price_ratio" = Some (VNum (Fin (a / b)%Qc))) (rows out)) ∧
  (has_column "demand" out = true →
   Forall (λ r : row,
             r !! "demand_level" =
             match num_at "demand" r with
             | Some (Fin q) => VCat <$> bucket_of q
             | Some PInf => Some (VCat "very_high")
             | _ => None
             end) (rows out)).
Proof.
  intros (_ & Hratio & Hlevel)%transform_steps_ok. split.
  - intros Hcols. destruct (Hratio Hcols) as [_ Hrows].
    eapply Forall_impl; [exact Hrows|]. intros r (_ & _ & Hr) a b Ha Hb Hnz.
    rewrite Hr. unfold price_ratio. rewrite Ha, Hb. simpl.
    by rewrite decide_False.
  - intros Hcol. destruct (Hlevel Hcol) as [_ Hrows].
    eapply Forall_impl; [exact Hrows|]. intros r (_ & Hr).
    rewrite Hr. destruct (num_at "demand" r) as [[|q|]|]; [done| |done..].
    by rewrite demand_level_finite.
Qed.

Lemma require_numbers_raise c df e :
  require_numbers c df = Raise e →
  (∃ msg, e = TypeError msg) ∧ ¬ numeric_field c df.
Proof.
  intros Hreq. split.
  - revert Hreq. unfold require_numbers.
    destruct (forallb _ _); [done|]. intros [= <-]. by eexists.
  - intros Hnum%require_numbers_ok. congruence.
Qed.

(** X10. [validate_data] returns a report exactly when the cells of the
    [current_price] column and of the [demand] column, where these columns
    exist, are numbers or missing; otherwise it raises [TypeError] to its
    caller and logs nothing. *)
Theorem validate_returns_iff (now : datetime) (data : DataFrame) :
  ((∃ rep lg, validate_data now data = (Ok rep, lg)) ↔
   (has_column "current_price" data = true →
    numeric_field "current_price" data) ∧
   (has_column "demand" data = true → numeric_field "demand" data)) ∧
  (∀ e lg, validate_data now data = (Raise e, lg) →
     lg = [] ∧ ∃ msg, e = TypeError msg).
Proof.
  unfold validate_data.
  destruct (has_column "current_price" data) eqn:Hcp.
  - destruct (require_numbers "current_price" data) as [[]|e1] eqn:H1; simpl.
    + apply require_numbers_ok in H1.
      destruct (has_column "demand" data) eqn:Hdm.
      * destruct (require_numbers "demand" data) as [[]|e2] eqn:H2; simpl.
        -- apply require_numbers_ok in H2. split; [|by intros e lg [=]].
           split; [done|]. intros _. by eexists _, _.
        -- apply require_numbers_raise in H2 as [Hmsg Hnot]. split.
           ++ split; [by intros (rep & lg & [=])|]. intros [_ Hd].
              by destruct (Hnot (Hd eq_refl)).
           ++ by intros e lg [= <- <-].
      * simpl. split; [|by intros e lg [=]].
        split; [done|]. intros _. by eexists _, _.
    + apply require_numbers_raise in H1 as [Hmsg Hnot]. split.
      * split; [by intros (rep & lg & [=])|]. intros [Hp _].
        by destruct (Hnot (Hp eq_refl)).
      * by intros e lg [= <- <-].
  - simpl. destruct (has_column "demand" data) eqn:Hdm.
    + destruct (require_numbers "demand" data) as [[]|e2] eqn:H2; simpl.
      * apply require_numbers_ok in H2. split; [|by intros e lg [=]].
        split; [done|]. intros _. by eexists _, _.
      * apply require_numbers_raise in H2 as [Hmsg Hnot]. split.
        -- split; [by intros (rep & lg & [=])|]. intros [_ Hd].
           by destruct (Hnot (Hd eq_refl)).
        -- by intros e lg [= <- <-].
    + simpl. split; [|by intros e lg [=]].
      split; [done|]. intros _. by eexists _, _.
Qed.

End pipeline_extras.
